(** * A monitoring bot for a chat platform: model and verification

    This development embeds [bot/app.py], a Flask application that relays
    alerts and commands between a chat platform, a metrics backend and a
    file holding the list of subscribed chats.

    Layout:
    - [Py]     the Python values and builtins the module relies on
               (JSON data, truthiness, [==], [in], subscripting, [float()],
               [str()], fixed-point formatting);
    - [Eff]    a state-and-exception monad for the effects of a request
               (the subscriber file, outbound HTTP calls, the log);
    - [App]    the functions of [bot/app.py], one definition per function;
    - [Sample] concrete configurations, worlds and requests;
    - [Obs]    the observations the statements are written with;
    - the lemmas and theorems.

    What is modelled and what is not:
    - a request is served alone: the state is threaded from one request
      to the next, nothing runs in between;
    - the subscriber file is either unreadable (missing, or not JSON) or
      holds a JSON value; whether a write of it goes through, is refused
      or breaks off is for the world to say;
    - an outbound call either fails in transport or is answered with a
      status code and a body; which of the two, and with what, is for the
      world to say, call by call;
    - a raised exception is kept by its class only. *)

From Stdlib Require Import ZArith List String Ascii Bool Lia.
From Stdlib Require Import SpecFloat DecimalString.
Import ListNotations.

Local Set Warnings "-register-all".
Local Open Scope string_scope.
Local Open Scope Z_scope.

(* ================================================================== *)
(** * Python values *)
(* ================================================================== *)

Module Py.

(** ** JSON data

    Every value the handlers touch comes out of [json.load] or
    [request.get_json]: [None], [bool], [int], [float], [str], [list] and
    [dict] with [str] keys.  A [str] is held as its UTF-8 bytes.  A [dict]
    is held in insertion order; a parsed dict has no repeated key. *)

Inductive json : Type :=
| JNull
| JBool (b : bool)
| JInt (n : Z)
| JFloat (x : spec_float)
| JStr (s : string)
| JArr (items : list json)
| JObj (fields : list (string * json)).

(** Exceptions, by class. *)
Inductive exn : Type :=
| KeyError
| IndexError
| TypeError
| AttributeError
| ValueError
| OverflowError
| OSError             (* open, write: the file cannot be written *)
| BadRequest          (* werkzeug: the request body is not JSON *)
| RequestException    (* requests: transport failure, timeout, HTTPError *)
| JSONDecodeError.    (* json, requests: a file or body that is not JSON *)

Inductive result (A : Type) : Type :=
| Ok (a : A)
| Raise (e : exn).
Arguments Ok {A} a.
Arguments Raise {A} e.

Definition rbind {A B} (r : result A) (k : A -> result B) : result B :=
  match r with
  | Ok a => k a
  | Raise e => Raise e
  end.

(** ** binary64 *)

Definition prec : Z := 53.
Definition emax : Z := 1024.

Definition float_is_zero (x : spec_float) : bool :=
  match x with
  | S754_zero _ => true
  | _ => false
  end.

(** The double nearest to [num / den] (ties to even), with sign [neg]. *)
Definition float_of_ratio (neg : bool) (num den : positive) : spec_float :=
  SFdiv prec emax (S754_finite neg num 0) (S754_finite false den 0).

(** [float(n)] for an [int]: rounds to nearest, raises when out of range. *)
Definition float_of_int (n : Z) : result spec_float :=
  match binary_normalize prec emax n 0 false with
  | S754_infinity _ => Raise OverflowError
  | x => Ok x
  end.

(** Is the integer [n] equal to the double [x]? (exact comparison) *)
Definition int_eq_float (n : Z) (x : spec_float) : bool :=
  match x with
  | S754_zero _ => n =? 0
  | S754_finite s m e =>
      let v := cond_Zopp s (Zpos m) in
      if 0 <=? e then n =? v * 2 ^ e else n * 2 ^ (- e) =? v
  | _ => false
  end.

(** ** Truthiness: [bool(v)] *)

Definition truthy (v : json) : bool :=
  match v with
  | JNull => false
  | JBool b => b
  | JInt n => negb (n =? 0)
  | JFloat x => negb (float_is_zero x)
  | JStr s => negb (s =? "")%string
  | JArr l => match l with [] => false | _ => true end
  | JObj kv => match kv with [] => false | _ => true end
  end.

(** [a or b] *)
Definition py_or (a b : json) : json := if truthy a then a else b.

(** ** Equality: [a == b]

    Numbers compare by value across [bool], [int] and [float]; a NaN is
    equal to nothing; lists compare pointwise; dicts compare as maps.

    Where Python compares the items of containers ([==] on lists and
    dicts, [in], [list.remove]) two items match when they are the same
    object or equal.  For values read from JSON, being the same object
    adds to being equal in one case: the literal [NaN], which the decoder
    hands out as one shared float. *)

Definition is_nan (v : json) : bool :=
  match v with
  | JFloat S754_nan => true
  | _ => false
  end.

(** [u is v], where it does not follow from [u == v]. *)
Definition same_object (u v : json) : bool := is_nan u && is_nan v.

Inductive number : Type :=
| NInt (n : Z)
| NFloat (x : spec_float).

Definition as_number (v : json) : option number :=
  match v with
  | JBool b => Some (NInt (if b then 1 else 0))
  | JInt n => Some (NInt n)
  | JFloat x => Some (NFloat x)
  | _ => None
  end.

Definition number_eq (a b : number) : bool :=
  match a, b with
  | NInt m, NInt n => m =? n
  | NInt m, NFloat y => int_eq_float m y
  | NFloat x, NInt n => int_eq_float n x
  | NFloat x, NFloat y => SFeqb x y
  end.

Fixpoint dict_find (k : string) (kv : list (string * json)) : option json :=
  match kv with
  | [] => None
  | (k', v) :: rest => if (k =? k')%string then Some v else dict_find k rest
  end.

Fixpoint py_eq (u v : json) {struct u} : bool :=
  match u, v with
  | JNull, JNull => true
  | JStr s, JStr t => (s =? t)%string
  | JArr l, JArr m =>
      (fix each (l m : list json) {struct l} : bool :=
         match l, m with
         | [], [] => true
         | x :: l', y :: m' => (same_object x y || py_eq x y) && each l' m'
         | _, _ => false
         end) l m
  | JObj kv, JObj kv' =>
      (List.length kv =? List.length kv')%nat &&
      (fix each (kv : list (string * json)) {struct kv} : bool :=
         match kv with
         | [] => true
         | (k, x) :: rest =>
             match dict_find k kv' with
             | Some y => same_object x y || py_eq x y
             | None => false
             end && each rest
         end) kv
  | JBool b, _ =>
      match as_number v with
      | Some n => number_eq (NInt (if b then 1 else 0)) n
      | None => false
      end
  | JInt m, _ =>
      match as_number v with
      | Some n => number_eq (NInt m) n
      | None => false
      end
  | JFloat x, _ =>
      match as_number v with
      | Some n => number_eq (NFloat x) n
      | None => false
      end
  | _, _ => false
  end.

(** [u is v or u == v]: how the items of a container are matched. *)
Definition py_match (u v : json) : bool := same_object u v || py_eq u v.


(** ** Strings

    A [str] is a sequence of code points; we hold its UTF-8 bytes and
    recover the code points where the code indexes or iterates a string:
    a code point is a lead byte with the continuation bytes after it. *)

Definition is_continuation (c : ascii) : bool :=
  let n := N_of_ascii c in ((128 <=? n) && (n <? 192))%N.

Definition starts_with_continuation (s : string) : bool :=
  match s with
  | String c _ => is_continuation c
  | EmptyString => false
  end.

Fixpoint utf8_chars (s : string) : list string :=
  match s with
  | EmptyString => []
  | String c r =>
      match utf8_chars r with
      | g :: gs =>
          if starts_with_continuation r then String c g :: gs
          else String c EmptyString :: g :: gs
      | [] => [String c EmptyString]
      end
  end.

(** [t in s] for two strings *)
Fixpoint is_substring (t s : string) : bool :=
  prefix t s ||
  match s with
  | EmptyString => false
  | String _ r => is_substring t r
  end.

(** [s.startswith(p)] *)
Definition startswith (s p : string) : bool := prefix p s.

(** [sep.join(parts)] *)
Fixpoint join (sep : string) (parts : list string) : string :=
  match parts with
  | [] => ""
  | [x] => x
  | x :: rest => x ++ sep ++ join sep rest
  end.

(** Decimal numerals *)
Definition decimal (n : Z) : string := NilZero.string_of_int (Z.to_int n).

(** ** Containers *)

Definition hashable (v : json) : bool :=
  match v with
  | JArr _ | JObj _ => false
  | _ => true
  end.

(** [x in c] *)
Definition py_in (x c : json) : result bool :=
  match c with
  | JArr l => Ok (existsb (fun item => py_match item x) l)
  | JObj kv =>
      if hashable x then
        Ok match x with
           | JStr k => match dict_find k kv with Some _ => true | None => false end
           | _ => false
           end
      else Raise TypeError
  | JStr s =>
      match x with
      | JStr t => Ok (is_substring t s)
      | _ => Raise TypeError
      end
  | _ => Raise TypeError
  end.

(** The items [for x in c] visits. *)
Definition py_iter (c : json) : result (list json) :=
  match c with
  | JArr l => Ok l
  | JObj kv => Ok (map (fun kx => JStr (fst kx)) kv)
  | JStr s => Ok (map JStr (utf8_chars s))
  | _ => Raise TypeError
  end.

(** [c[k]] for a string literal [k] *)
Definition getitem_key (c : json) (k : string) : result json :=
  match c with
  | JObj kv =>
      match dict_find k kv with
      | Some v => Ok v
      | None => Raise KeyError
      end
  | _ => Raise TypeError
  end.

(** [c[i]] for an integer literal [i >= 0] *)
Definition getitem_idx (c : json) (i : nat) : result json :=
  match c with
  | JArr l =>
      match nth_error l i with
      | Some v => Ok v
      | None => Raise IndexError
      end
  | JStr s =>
      match nth_error (utf8_chars s) i with
      | Some ch => Ok (JStr ch)
      | None => Raise IndexError
      end
  | JObj _ => Raise KeyError
  | _ => Raise TypeError
  end.

(** [c.get(k, default)]; [c.get(k)] is [py_get c k JNull]. *)
Definition py_get (c : json) (k : string) (default : json) : result json :=
  match c with
  | JObj kv =>
      match dict_find k kv with
      | Some v => Ok v
      | None => Ok default
      end
  | _ => Raise AttributeError
  end.

(** [l.remove(x)] on the items of a list: drops the first item that
    matches [x]; [None] stands for the [ValueError] of an absent [x]. *)
Fixpoint remove_first (x : json) (l : list json) : option (list json) :=
  match l with
  | [] => None
  | item :: rest =>
      if py_match item x then Some rest
      else option_map (cons item) (remove_first x rest)
  end.

(** [c.append(x)]: the new contents of [c]. *)
Definition py_append (c x : json) : result json :=
  match c with
  | JArr l => Ok (JArr (l ++ [x]))
  | _ => Raise AttributeError
  end.

(** [c.remove(x)]: the new contents of [c]. *)
Definition py_remove (c x : json) : result json :=
  match c with
  | JArr l =>
      match remove_first x l with
      | Some l' => Ok (JArr l')
      | None => Raise ValueError
      end
  | _ => Raise AttributeError
  end.


(** ** [float(s)] for a string

    The grammar is the one of [float()] on an ASCII string: blanks are
    stripped at both ends, single underscores may sit between digits, and
    what is left is a signed decimal numeral with an optional fraction and
    exponent, or one of [inf], [infinity], [nan] in any letter case.  The
    value is the double nearest to the numeral. *)

Definition is_space (c : ascii) : bool :=
  let n := N_of_ascii c in (((9 <=? n) && (n <=? 13)) || (n =? 32))%N.

Definition digit_of (c : ascii) : option Z :=
  let n := N_of_ascii c in
  if ((48 <=? n) && (n <=? 57))%N then Some (Z.of_N n - 48) else None.

Definition is_digit (c : ascii) : bool :=
  match digit_of c with Some _ => true | None => false end.

Definition is_ascii_string (s : string) : bool :=
  forallb (fun c => (N_of_ascii c <? 128)%N) (list_ascii_of_string s).

Definition lower (c : ascii) : ascii :=
  let n := N_of_ascii c in
  if ((65 <=? n) && (n <=? 90))%N then ascii_of_N (n + 32) else c.

Fixpoint drop_spaces (cs : list ascii) : list ascii :=
  match cs with
  | c :: rest => if is_space c then drop_spaces rest else cs
  | [] => []
  end.

Definition strip (cs : list ascii) : list ascii :=
  rev (drop_spaces (rev (drop_spaces cs))).

(** Underscores go away when each one stands between two digits. *)
Fixpoint drop_underscores (prev : ascii) (cs : list ascii)
  : option (list ascii) :=
  match cs with
  | [] => if Ascii.eqb prev "_" then None else Some []
  | c :: rest =>
      if Ascii.eqb c "_" then
        if is_digit prev then drop_underscores c rest else None
      else if Ascii.eqb prev "_" && negb (is_digit c) then None
      else option_map (cons c) (drop_underscores c rest)
  end.

Fixpoint span_digits (cs : list ascii) : list Z * list ascii :=
  match cs with
  | c :: rest =>
      match digit_of c with
      | Some d => let (ds, r) := span_digits rest in (d :: ds, r)
      | None => ([], cs)
      end
  | [] => ([], [])
  end.

Definition number_of_digits (ds : list Z) : Z :=
  fold_left (fun acc d => 10 * acc + d) ds 0.

Definition split_sign (cs : list ascii) : bool * list ascii :=
  match cs with
  | c :: rest =>
      if Ascii.eqb c "-" then (true, rest)
      else if Ascii.eqb c "+" then (false, rest)
      else (false, cs)
  | [] => (false, [])
  end.

(** A numeral [digits [. digits] [e [sign] digits]] with at least one
    digit beside the exponent, read as [mantissa * 10 ^ exponent]. *)
Definition parse_decimal (cs : list ascii) : option (Z * Z) :=
  let (ip, r1) := span_digits cs in
  let (fp, r2) :=
    match r1 with
    | c :: r => if Ascii.eqb c "." then span_digits r else ([], r1)
    | [] => ([], r1)
    end in
  match (ip ++ fp)%list with
  | [] => None
  | ds =>
      let mant := number_of_digits ds in
      let shift := Z.of_nat (List.length fp) in
      match r2 with
      | [] => Some (mant, - shift)
      | c :: r =>
          if Ascii.eqb (lower c) "e" then
            let (neg, r') := split_sign r in
            match span_digits r' with
            | (d :: ds', []) =>
                let e := number_of_digits (d :: ds') in
                Some (mant, (if neg then - e else e) - shift)
            | _ => None
            end
          else None
      end
  end.

Definition float_of_decimal (neg : bool) (mant e10 : Z) : spec_float :=
  match mant with
  | Zpos m =>
      if 0 <=? e10 then float_of_ratio neg (m * Z.to_pos (10 ^ e10)) 1
      else float_of_ratio neg m (Z.to_pos (10 ^ (- e10)))
  | _ => S754_zero neg
  end.

Definition parse_inf_nan (neg : bool) (cs : list ascii) : option spec_float :=
  let word := string_of_list_ascii (map lower cs) in
  if (word =? "inf")%string || (word =? "infinity")%string
  then Some (S754_infinity neg)
  else if (word =? "nan")%string then Some S754_nan
  else None.

Definition float_of_ascii (s : string) : option spec_float :=
  match drop_underscores zero (strip (list_ascii_of_string s)) with
  | None => None
  | Some cs =>
      let (neg, body) := split_sign cs in
      match parse_decimal body with
      | Some (mant, e10) => Some (float_of_decimal neg mant e10)
      | None => parse_inf_nan neg body
      end
  end.

(** ** Builtins left uninterpreted

    Two builtins are taken as given: the [repr] of a float, list or dict,
    which [str()] falls back on, and the reading by [float()] of a string
    with characters outside ASCII (Unicode digits and blanks). *)

Record builtins : Type := {
  py_repr : json -> string;
  float_of_unicode : string -> option spec_float
}.

(** [float(v)] *)
Definition py_float (rt : builtins) (v : json) : result spec_float :=
  match v with
  | JFloat x => Ok x
  | JInt n => float_of_int n
  | JBool b => float_of_int (if b then 1 else 0)
  | JStr s =>
      match (if is_ascii_string s then float_of_ascii s
             else float_of_unicode rt s) with
      | Some x => Ok x
      | None => Raise ValueError
      end
  | _ => Raise TypeError
  end.

(** [str(v)], which is what [f"{v}"] inserts *)
Definition py_str (rt : builtins) (v : json) : string :=
  match v with
  | JStr s => s
  | JNull => "None"
  | JBool true => "True"
  | JBool false => "False"
  | JInt n => decimal n
  | _ => py_repr rt v
  end.

(** ** Fixed-point formatting: [f"{x:.Nf}"] *)

Definition round_half_even (num den : Z) : Z :=
  let q := num / den in
  match (2 * (num mod den) ?= den) with
  | Lt => q
  | Gt => q + 1
  | Eq => if Z.even q then q else q + 1
  end.

Fixpoint zeros (n : nat) : string :=
  match n with
  | O => ""
  | S n' => String "0" (zeros n')
  end.

Definition pad_zeros (width : nat) (s : string) : string :=
  zeros (width - String.length s) ++ s.

(** The digits of [q / 10 ^ places], [places] of them after the point. *)
Definition fixed_digits (places : nat) (q : Z) : string :=
  let unit := 10 ^ Z.of_nat places in
  decimal (q / unit) ++
  match places with
  | O => ""
  | _ => "." ++ pad_zeros places (decimal (q mod unit))
  end.

Definition format_fixed (places : nat) (x : spec_float) : string :=
  match x with
  | S754_nan => "nan"
  | S754_infinity s => if s then "-inf" else "inf"
  | S754_zero s => (if s then "-" else "") ++ fixed_digits places 0
  | S754_finite s m e =>
      let scaled := Zpos m * 10 ^ Z.of_nat places in
      let q := if 0 <=? e then scaled * 2 ^ e
               else round_half_even scaled (2 ^ (- e)) in
      (if s then "-" else "") ++ fixed_digits places q
  end.

End Py.

(* ================================================================== *)
(** * Effects of a request *)
(* ================================================================== *)

Module Eff.
Import Py.

(** ** Outbound HTTP, as [requests] sees it *)

Inductive method : Type := GET | POST.

Record http_request : Type := {
  req_method : method;
  req_url : string;
  req_params : list (string * string);
  req_json : option json;
  req_timeout : Z
}.

(** A reply carries its status code and its body read as JSON, [None]
    when the body is not JSON. *)
Record http_response : Type := {
  status_code : Z;
  body_json : option json
}.

(** A call either fails in transport (no route, timeout, ...) or is
    answered. *)
Inductive http_outcome : Type :=
| Unreachable
| Answered (r : http_response).

(** What becomes of a write of the subscriber file: it goes through;
    the file cannot be opened for writing and stays as it is; or the
    file is opened, which empties it, and the write breaks off, so that
    what is left is not JSON.  The last two raise [OSError]. *)
Inductive write_outcome : Type :=
| Written
| Refused
| Torn.

(** The world outside the process: how the [n]-th outbound call of a
    request is answered, the clock as [datetime.utcnow().isoformat()]
    reads it, and what becomes of a write of the subscriber file. *)
Record world : Type := {
  net : nat -> http_request -> http_outcome;
  utcnow_iso : string;
  disk : write_outcome
}.

Inductive log_entry : Type :=
| SendFailed (e : exn)
| QueryFailed (e : exn).

(** What a request can change: the subscriber file ([None] when the file
    is missing or does not hold JSON), the outbound calls made so far, in
    order, and the error log. *)
Record state : Type := {
  subscr_file : option json;
  calls : list http_request;
  logged : list log_entry
}.

(** ** The monad: state that survives an exception *)

Definition M (A : Type) : Type := state -> result A * state.

Definition ret {A} (a : A) : M A := fun st => (Ok a, st).

Definition raise {A} (e : exn) : M A := fun st => (Raise e, st).

Definition bind {A B} (m : M A) (k : A -> M B) : M B :=
  fun st =>
    match m st with
    | (Ok a, st') => k a st'
    | (Raise e, st') => (Raise e, st')
    end.

Definition lift {A} (r : result A) : M A := fun st => (r, st).

(** [try: m except Exception as e: h e] *)
Definition try_except {A} (m : M A) (h : exn -> M A) : M A :=
  fun st =>
    match m st with
    | (Ok a, st') => (Ok a, st')
    | (Raise e, st') => h e st'
    end.

Fixpoint for_each {A B} (items : list A) (f : A -> M B) : M unit :=
  match items with
  | [] => ret tt
  | x :: rest => bind (f x) (fun _ => for_each rest f)
  end.

Definition with_file (st : state) (file : option json) : state :=
  {| subscr_file := file; calls := calls st; logged := logged st |}.

Definition with_call (st : state) (req : http_request) : state :=
  {| subscr_file := subscr_file st;
     calls := calls st ++ [req];
     logged := logged st |}.

Definition with_log (st : state) (entry : log_entry) : state :=
  {| subscr_file := subscr_file st;
     calls := calls st;
     logged := logged st ++ [entry] |}.

Definition log_error (entry : log_entry) : M unit :=
  fun st => (Ok tt, with_log st entry).

Definition read_file : M (option json) :=
  fun st => (Ok (subscr_file st), st).

(** The file a write of [j] leaves, [file] being there before. *)
Definition written (d : write_outcome) (file : option json) (j : json)
  : option json :=
  match d with
  | Written => Some j
  | Refused => file
  | Torn => None
  end.

Definition write_file (w : world) (j : json) : M unit :=
  fun st =>
    (match disk w with
     | Written => Ok tt
     | Refused | Torn => Raise OSError
     end,
     with_file st (written (disk w) (subscr_file st) j)).

(** [requests.get] / [requests.post]: the call is recorded, then answered
    by the world. *)
Definition http (w : world) (req : http_request) : M http_response :=
  fun st =>
    match net w (List.length (calls st)) req with
    | Unreachable => (Raise RequestException, with_call st req)
    | Answered r => (Ok r, with_call st req)
    end.

(** [r.raise_for_status()]: raises on a 4xx or 5xx status. *)
Definition is_error_status (code : Z) : bool :=
  (400 <=? code) && (code <? 600).

Definition raise_for_status (r : http_response) : M unit :=
  if is_error_status (status_code r) then raise RequestException else ret tt.

(** [r.json()] *)
Definition response_json (r : http_response) : M json :=
  match body_json r with
  | Some j => ret j
  | None => raise JSONDecodeError
  end.

(** ** What a handler returns to Flask *)

Inductive content : Type :=
| JsonBody (j : json)
| TextBody (s : string)
| ErrorPage.

Record reply : Type := {
  reply_status : Z;
  reply_body : content
}.

(** [jsonify(j)] and [jsonify(j), code] *)
Definition jsonify (j : json) : reply :=
  {| reply_status := 200; reply_body := JsonBody j |}.

Definition jsonify_with (j : json) (code : Z) : reply :=
  {| reply_status := code; reply_body := JsonBody j |}.

(** [request.get_json(force=True)]: the parsed body; a body that is not
    JSON ([None] here) aborts the request. *)
Definition get_json (body : option json) : M json :=
  match body with
  | Some j => ret j
  | None => raise BadRequest
  end.

(** What the client receives when a handler lets an exception through:
    Flask renders an error page, not JSON. *)
Definition flask_response (r : result reply) : reply :=
  match r with
  | Ok rep => rep
  | Raise BadRequest => {| reply_status := 400; reply_body := ErrorPage |}
  | Raise _ => {| reply_status := 500; reply_body := ErrorPage |}
  end.

End Eff.

Declare Scope eff_scope.
Notation "x <- m ;; k" := (Eff.bind m (fun x => k))
  (at level 61, m at next level, right associativity) : eff_scope.
Notation "m ;; k" := (Eff.bind m (fun _ => k))
  (at level 61, right associativity) : eff_scope.

(* ================================================================== *)
(** * The application: [bot/app.py] *)
(* ================================================================== *)

Module App.
Import Py Eff.
Local Open Scope eff_scope.

(** The settings read at start-up from [config.json], each with a
    built-in default; any JSON value can stand in the file. *)
Record config : Type := {
  BOT_TOKEN : json;
  PROMETHEUS_URL : json;
  ADMIN_CHAT_ID : json
}.

(** [config.json] at start-up: absent, present and not JSON, or parsed. *)
Inductive config_file : Type :=
| NoFile
| NotJson
| Parsed (j : json).

(** [CONFIG = {}], replaced by the parsed file when there is one, then
    [CONFIG.get(key, default)] for the three settings.  The defaults are
    literals of the source and are taken as an argument here. *)
Definition configure (defaults : config) (file : config_file)
  : result config :=
  rbind match file with
        | NoFile => Ok (JObj [])
        | NotJson => Raise JSONDecodeError
        | Parsed j => Ok j
        end (fun CONFIG =>
  rbind (py_get CONFIG "BOT_TOKEN" (BOT_TOKEN defaults)) (fun token =>
  rbind (py_get CONFIG "PROMETHEUS_URL" (PROMETHEUS_URL defaults)) (fun url =>
  rbind (py_get CONFIG "ADMIN_CHAT_ID" (ADMIN_CHAT_ID defaults)) (fun admin =>
  Ok {| BOT_TOKEN := token;
        PROMETHEUS_URL := url;
        ADMIN_CHAT_ID := admin |})))).

Section Handlers.

Variable rt : builtins.
Variable cfg : config.
Variable w : world.

(** ** Subscribers *)

Definition load_subscribers : M json :=
  file <- read_file ;;
  match file with
  | Some j => ret j
  | None => ret (JArr [])
  end.

Definition save_subscribers (lst : json) : M unit := write_file w lst.

(** ** Sending a message *)

Definition send_message_request (chat_id : json) (text : string)
  : http_request :=
  {| req_method := POST;
     req_url := "https://api.telegram.org/bot" ++ py_str rt (BOT_TOKEN cfg)
                ++ "/sendMessage";
     req_params := [];
     req_json := Some (JObj [("chat_id", chat_id);
                             ("text", JStr text);
                             ("parse_mode", JStr "Markdown")]);
     req_timeout := 5 |}.

Definition send_telegram (chat_id : json) (text : string) : M bool :=
  try_except
    (r <- http w (send_message_request chat_id text) ;;
     raise_for_status r ;;
     ret true)
    (fun e => log_error (SendFailed e) ;; ret false).

(** ** Querying the metrics backend *)

Definition query_request (query : string) : http_request :=
  {| req_method := GET;
     req_url := py_str rt (PROMETHEUS_URL cfg) ++ "/api/v1/query";
     req_params := [("query", query)];
     req_json := None;
     req_timeout := 10 |}.

(** The part of [prom_query] that reads the decoded answer. *)
Definition read_sample (data : json) : result (option spec_float) :=
  rbind (getitem_key data "status") (fun status =>
  if negb (py_eq status (JStr "success")) then Ok None else
  rbind (getitem_key data "data") (fun d =>
  rbind (getitem_key d "result") (fun results =>
  if negb (truthy results) then Ok None else
  rbind (getitem_idx results 0) (fun first =>
  rbind (getitem_key first "value") (fun pair =>
  rbind (getitem_idx pair 1) (fun val =>
  rbind (py_float rt val) (fun x =>
  Ok (Some x)))))))).

Definition prom_query (query : string) : M (option spec_float) :=
  try_except
    (r <- http w (query_request query) ;;
     raise_for_status r ;;
     data <- response_json r ;;
     lift (read_sample data))
    (fun e => log_error (QueryFailed e) ;; ret None).

(** ** The status report *)

Definition dquote : string := String (ascii_of_nat 34) EmptyString.

Definition q_cpu : string :=
  "100 - (avg by (instance) (irate(node_cpu_seconds_total{mode="
  ++ dquote ++ "idle" ++ dquote ++ "}[5m])) * 100)".
Definition q_mem : string :=
  "(1 - (node_memory_MemAvailable_bytes / node_memory_MemTotal_bytes)) * 100".
Definition q_disk : string :=
  "(node_filesystem_avail_bytes{mountpoint=" ++ dquote ++ "/" ++ dquote
  ++ "} / node_filesystem_size_bytes{mountpoint=" ++ dquote ++ "/" ++ dquote
  ++ "}) * 100".
Definition q_net_rx : string :=
  "rate(node_network_receive_bytes_total[5m]) * 8 / 1e6".
Definition q_net_tx : string :=
  "rate(node_network_transmit_bytes_total[5m]) * 8 / 1e6".

(** [bool(x)] for what [prom_query] returns: [None] and zero are false. *)
Definition sample_truthy (x : option spec_float) : bool :=
  match x with
  | Some v => negb (float_is_zero v)
  | None => false
  end.

(** [f"{label}: `{x:.Nf}{unit}`" if x else f"{short}: `N/A`"] *)
Definition metric_line (label short unit : string) (places : nat)
  (x : option spec_float) : string :=
  match x with
  | Some v =>
      if sample_truthy x
      then label ++ ": `" ++ format_fixed places v ++ unit ++ "`"
      else short ++ ": `N/A`"
  | None => short ++ ": `N/A`"
  end.

Definition network_line (rx tx : option spec_float) : string :=
  match rx, tx with
  | Some r, Some t =>
      if sample_truthy rx && sample_truthy tx
      then "Network RX/TX: `" ++ format_fixed 2 r ++ "` Mbps / `"
           ++ format_fixed 2 t ++ "` Mbps"
      else "Network: `N/A`"
  | _, _ => "Network: `N/A`"
  end.

Definition header_line : string :=
  "*Status report — " ++ utcnow_iso w ++ " UTC*".

Definition status_lines (cpu mem disk rx tx : option spec_float)
  : list string :=
  [ header_line;
    metric_line "CPU" "CPU" "%" 1 cpu;
    metric_line "Memory used" "Memory" "%" 1 mem;
    metric_line "Disk free (root)" "Disk" "%" 1 disk;
    network_line rx tx ].

Definition newline : string := String (ascii_of_nat 10) EmptyString.

Definition build_status_text : M string :=
  cpu <- prom_query q_cpu ;;
  mem <- prom_query q_mem ;;
  disk <- prom_query q_disk ;;
  rx <- prom_query q_net_rx ;;
  tx <- prom_query q_net_tx ;;
  ret (join newline (status_lines cpu mem disk rx tx)).


(** ** The inbound-message hook: [POST /telegram_webhook] *)

Definition ack : reply := jsonify (JObj [("ok", JBool true)]).

(** [text.startswith(prefix)] on whatever [text] is *)
Definition text_startswith (text : json) (p : string) : result bool :=
  match text with
  | JStr s => Ok (startswith s p)
  | _ => Raise AttributeError
  end.

Definition greeting : string :=
  "Привет! Я бот мониторинга. Ты подписан на оповещения.".
Definition farewell : string :=
  "Отключил оповещения для этого чата.".
Definition unknown_command : string :=
  "Команда не распознана. Используйте /status или /start.".

(** The message of an update, then its chat and text:
    [message = data.get("message") or data.get("edited_message")], and for
    a message that is not false, [message["chat"]["id"]] and
    [message.get("text", "")]. *)
Definition read_update (data : json) : result (option (json * json)) :=
  rbind (py_get data "message" JNull) (fun m =>
  rbind (if truthy m then Ok m
         else py_get data "edited_message" JNull) (fun message =>
  if negb (truthy message) then Ok None else
  rbind (getitem_key message "chat") (fun chat =>
  rbind (getitem_key chat "id") (fun chat_id =>
  rbind (py_get message "text" (JStr EmptyString)) (fun text =>
  Ok (Some (chat_id, text))))))).

(** The chain of [if text.startswith(...)] tests. *)
Definition handle_command (chat_id text : json) : M reply :=
  is_status <- lift (text_startswith text "/status") ;;
  if is_status then
    status <- build_status_text ;;
    send_telegram chat_id status ;;
    ret ack
  else
  is_start <- lift (text_startswith text "/start") ;;
  if is_start then
    send_telegram chat_id greeting ;;
    subs <- load_subscribers ;;
    present <- lift (py_in chat_id subs) ;;
    (if negb present then
       subs' <- lift (py_append subs chat_id) ;;
       save_subscribers subs'
     else ret tt) ;;
    ret ack
  else
  is_stop <- lift (text_startswith text "/stop") ;;
  if is_stop then
    subs <- load_subscribers ;;
    present <- lift (py_in chat_id subs) ;;
    (if present then
       subs' <- lift (py_remove subs chat_id) ;;
       save_subscribers subs'
     else ret tt) ;;
    send_telegram chat_id farewell ;;
    ret ack
  else
    send_telegram chat_id unknown_command ;;
    ret ack.

Definition telegram_webhook (body : option json) : M reply :=
  data <- get_json body ;;
  update <- lift (read_update data) ;;
  match update with
  | None => ret ack
  | Some (chat_id, text) => handle_command chat_id text
  end.

(** ** The inbound-alert hook: [POST /grafana_webhook] *)

(** [c.get(k1) or c.get(k2) or default] *)
Definition get_either (c : json) (k1 k2 : string) (default : json)
  : result json :=
  rbind (py_get c k1 JNull) (fun a =>
  if truthy a then Ok a else
  rbind (py_get c k2 JNull) (fun b =>
  Ok (py_or b default))).

(** The block of one entry of [payload["alerts"]]. *)
Definition alert_block (a : json) : result string :=
  rbind (py_get a "status" (JStr EmptyString)) (fun status =>
  rbind (py_get a "labels" (JObj [])) (fun labels =>
  rbind (py_get a "annotations" (JObj [])) (fun annotations =>
  rbind (py_get labels "alertname" (JStr "alert")) (fun name =>
  rbind (get_either annotations "description" "summary" (JStr EmptyString))
    (fun desc =>
  rbind (get_either labels "instance" "host" (JStr EmptyString)) (fun inst =>
  Ok (newline ++ "*" ++ py_str rt name ++ "* — " ++ py_str rt status
      ++ newline ++ "Instance: `" ++ py_str rt inst ++ "`" ++ newline
      ++ py_str rt desc ++ newline))))))).

Fixpoint alert_blocks (text : string) (alerts : list json) : result string :=
  match alerts with
  | [] => Ok text
  | a :: rest =>
      rbind (alert_block a) (fun block => alert_blocks (text ++ block) rest)
  end.

(** The block of a payload without [alerts]. *)
Definition flat_block (payload : json) : result string :=
  rbind (get_either payload "title" "ruleName" (JStr "Grafana alert"))
    (fun title =>
  rbind (get_either payload "state" "status" (JStr EmptyString)) (fun state =>
  rbind (py_get payload "message" JNull) (fun m =>
  let message := py_or m (JStr EmptyString) in
  Ok (newline ++ "*" ++ py_str rt title ++ "* — `" ++ py_str rt state ++ "`"
      ++ newline ++ py_str rt message ++ newline)))).

Definition alert_heading : string := "[ALERT] Received notification" ++ newline.

Definition render_alert (payload : json) : result string :=
  rbind (py_get payload "alerts" JNull) (fun alerts =>
  if truthy alerts then
    rbind (getitem_key payload "alerts") (fun alerts' =>
    rbind (py_iter alerts') (fun items =>
    alert_blocks alert_heading items))
  else
    rbind (flat_block payload) (fun block => Ok (alert_heading ++ block))).

(** [subs = load_subscribers(); if not subs and ADMIN_CHAT_ID: subs = [ADMIN_CHAT_ID]] *)
Definition recipients (subs : json) : json :=
  if negb (truthy subs) && truthy (ADMIN_CHAT_ID cfg)
  then JArr [ADMIN_CHAT_ID cfg]
  else subs.

Definition grafana_webhook (body : option json) : M reply :=
  payload <- get_json body ;;
  match payload with
  | JNull => ret (jsonify_with (JObj [("ok", JBool false)]) 400)
  | _ =>
      text <- lift (render_alert payload) ;;
      subs <- load_subscribers ;;
      targets <- lift (py_iter (recipients subs)) ;;
      for_each targets (fun c => send_telegram c text) ;;
      ret ack
  end.

(** ** Registering the webhook: [POST /set_telegram_webhook] *)

Definition set_webhook_request (url : json) : http_request :=
  {| req_method := POST;
     req_url := "https://api.telegram.org/bot" ++ py_str rt (BOT_TOKEN cfg)
                ++ "/setWebhook";
     req_params := [];
     req_json := Some (JObj [("url", url)]);
     req_timeout := 10 |}.

Definition set_webhook (body : option json) : M reply :=
  data <- get_json body ;;
  url <- lift (py_get data "url" JNull) ;;
  if negb (truthy url) then
    ret (jsonify_with (JObj [("error", JStr "url required")]) 400)
  else
    r <- http w (set_webhook_request url) ;;
    j <- response_json r ;;
    ret (jsonify j).

(** ** Liveness: [GET /] *)

Definition index : M reply :=
  ret {| reply_status := 200;
         reply_body := TextBody "Monitoring Telegram webhook service is running." |}.

End Handlers.
End App.


(* ================================================================== *)
(** * Sample inputs *)
(* ================================================================== *)

Module Sample.
Import Py Eff App.

Definition rt : builtins :=
  {| py_repr := fun _ => "<repr>";
     float_of_unicode := fun _ => None |}.

Definition cfg : config :=
  {| BOT_TOKEN := JStr "TOKEN";
     PROMETHEUS_URL := JStr "http://localhost:9090";
     ADMIN_CHAT_ID := JStr "632306300" |}.

Definition fresh : state :=
  {| subscr_file := None; calls := []; logged := [] |}.

Definition holding (subs : list json) : state :=
  {| subscr_file := Some (JArr subs); calls := []; logged := [] |}.

Definition answer (code : Z) (body : option json) : http_outcome :=
  Answered {| status_code := code; body_json := body |}.

(** A world where every call is answered the same way. *)
Definition always (a : http_outcome) : world :=
  {| net := fun _ _ => a;
     utcnow_iso := "2024-01-01T00:00:00";
     disk := Written |}.

(** The same world with a subscriber file that cannot be opened for
    writing. *)
Definition read_only (a : http_outcome) : world :=
  {| net := fun _ _ => a;
     utcnow_iso := "2024-01-01T00:00:00";
     disk := Refused |}.

(** The instant-query answer carrying one sample. *)
Definition sample_body (value : json) : json :=
  JObj [("status", JStr "success");
        ("data", JObj [("resultType", JStr "vector");
                       ("result",
                        JArr [JObj [("metric", JObj []);
                                    ("value", JArr [JInt 1704067200; value])]])])].

(** [42.5] as a double: [85 / 2]. *)
Definition f42_5 : spec_float := S754_finite false 5981343255101440 (-47).

(** A backend whose receive rate is exactly zero, every other metric
    reading [42.5]. *)
Definition idle_link : world :=
  {| net := fun _ req =>
       match req_params req with
       | [(_, q)] =>
           if (q =? q_net_rx)%string
           then answer 200 (Some (sample_body (JStr "0")))
           else answer 200 (Some (sample_body (JStr "42.5")))
       | _ => answer 200 (Some (JObj [("ok", JBool true)]))
       end;
     utcnow_iso := "2024-01-01T00:00:00";
     disk := Written |}.

(** An update as the chat platform posts it. *)
Definition update (chat_id : json) (text : string) : json :=
  JObj [("update_id", JInt 1);
        ("message", JObj [("message_id", JInt 7);
                          ("chat", JObj [("id", chat_id); ("type", JStr "private")]);
                          ("text", JStr text)])].

(** An alert as the alerting backend posts it, and its rendering. *)
Definition high_cpu : json :=
  JObj [("alerts",
         JArr [JObj [("status", JStr "firing");
                     ("labels", JObj [("alertname", JStr "HighCPU");
                                      ("instance", JStr "host1")]);
                     ("annotations", JObj [("summary", JStr "cpu high")])]])].

Definition high_cpu_text : string :=
  alert_heading ++ newline ++ "*HighCPU* — firing" ++ newline
  ++ "Instance: `host1`" ++ newline ++ "cpu high" ++ newline.

End Sample.

(* ================================================================== *)
(** * Observations used in the statements *)
(* ================================================================== *)

Module Obs.
Import Py Eff App.

(** Whether the world [w] accepts the call [req] made as call number
    [n]: it answers, and not with an error status. *)
Definition accepted (w : world) (n : nat) (req : http_request) : bool :=
  match net w n req with
  | Unreachable => false
  | Answered r => negb (is_error_status (status_code r))
  end.

(** What [load_subscribers] returns in a state. *)
Definition subscribers (st : state) : json :=
  match subscr_file st with
  | Some j => j
  | None => JArr []
  end.

(** Chat identifiers are integers or strings. *)
Definition valid_chat_id (c : json) : bool :=
  match c with
  | JInt _ | JStr _ => true
  | _ => false
  end.

(** Does some item of [l] match [c]? ([c in l]) *)
Definition listed (c : json) (l : list json) : bool :=
  existsb (fun item => py_match item c) l.

(** The number of items of [l] that match [c]. *)
Definition occurrences (c : json) (l : list json) : nat :=
  List.length (filter (fun item => py_match item c) l).

(** The request [r] posts the message [text] to the chat [c]: its JSON
    body is [{"chat_id": c, "text": text, "parse_mode": "Markdown"}]. *)
Definition carries (r : http_request) (c : json) (text : string) : Prop :=
  req_method r = POST
  /\ req_json r = Some (JObj [("chat_id", c);
                              ("text", JStr text);
                              ("parse_mode", JStr "Markdown")]).

(** What a handler returns that writes the subscriber file and then
    acknowledges: the acknowledgement, or the [OSError] of the write. *)
Definition ack_after_write (d : write_outcome) : result reply :=
  match d with
  | Written => Ok ack
  | Refused | Torn => Raise OSError
  end.

(** Requests served one after the other, each in its own world. *)
Fixpoint serve_updates (rt : builtins) (cfg : config)
  (requests : list (world * json)) (st : state) : state :=
  match requests with
  | [] => st
  | (w, data) :: rest =>
      serve_updates rt cfg rest (snd (telegram_webhook rt cfg w (Some data) st))
  end.

(** The update [data] is a message from chat [c] whose text starts with
    [command]. *)
Definition command_from (command : string) (c : json) (data : json) : Prop :=
  exists t, read_update data = Ok (Some (c, JStr t))
            /\ startswith t command = true.

End Obs.

(* ================================================================== *)
(** * Shapes of requests used in the further statements *)
(* ================================================================== *)

Module Shape.
Import Py Eff App.

(** [d.get(k)] on the fields of a dict. *)
Definition field (fields : list (string * json)) (k : string) : json :=
  match dict_find k fields with
  | Some v => v
  | None => JNull
  end.

Definition is_object (v : json) : bool :=
  match v with
  | JObj _ => true
  | _ => false
  end.

Definition is_text (v : json) : bool :=
  match v with
  | JStr _ => true
  | _ => false
  end.

(** An entry of [alerts] as the alerting backend posts it: an object
    whose [labels] and [annotations], when present, are objects. *)
Definition alert_entry (a : json) : bool :=
  match a with
  | JObj fields =>
      match dict_find "labels" fields with
      | Some v => is_object v
      | None => true
      end &&
      match dict_find "annotations" fields with
      | Some v => is_object v
      | None => true
      end
  | _ => false
  end.

(** The five expressions of the report, in the order they are asked. *)
Definition status_queries : list string :=
  [q_cpu; q_mem; q_disk; q_net_rx; q_net_tx].

(** The text is none of the three commands. *)
Definition no_command (t : string) : bool :=
  negb (startswith t "/status") && negb (startswith t "/start")
  && negb (startswith t "/stop").

End Shape.

(* ================================================================== *)
(** * Verification *)
(* ================================================================== *)

Import Py Eff App Obs.
Local Open Scope eff_scope.
Local Open Scope list_scope.

(** ** Running the monad *)

Lemma bind_ok {A B} (m : M A) (k : A -> M B) st a st' :
  m st = (Ok a, st') -> bind m k st = k a st'.
Proof. intros H. unfold bind. now rewrite H. Qed.

Lemma bind_raise {A B} (m : M A) (k : A -> M B) st e st' :
  m st = (Raise e, st') -> bind m k st = (Raise e, st').
Proof. intros H. unfold bind. now rewrite H. Qed.

Lemma is_error_status_spec code :
  is_error_status code = true <-> 400 <= code < 600.
Proof. unfold is_error_status. rewrite andb_true_iff. lia. Qed.

Lemma success_is_no_error code :
  200 <= code < 300 -> is_error_status code = false.
Proof.
  intros H. destruct (is_error_status code) eqn:E; [|reflexivity].
  apply is_error_status_spec in E. lia.
Qed.

(** ** The notifier *)

Section Notifier.

Variable rt : builtins.
Variable cfg : config.
Variable w : world.

Lemma send_telegram_run chat_id text st :
  let req := send_message_request rt cfg chat_id text in
  send_telegram rt cfg w chat_id text st =
    if accepted w (List.length (calls st)) req
    then (Ok true, with_call st req)
    else (Ok false, with_log (with_call st req) (SendFailed RequestException)).
Proof.
  cbv zeta.
  unfold send_telegram, try_except, bind, http, accepted, raise_for_status.
  destruct (net w _ _) as [|r]; [reflexivity|].
  destruct (is_error_status (status_code r)); reflexivity.
Qed.

Lemma send_telegram_total chat_id text st :
  exists b st',
    send_telegram rt cfg w chat_id text st = (Ok b, st')
    /\ subscr_file st' = subscr_file st
    /\ calls st' = calls st ++ [send_message_request rt cfg chat_id text].
Proof.
  rewrite send_telegram_run.
  destruct (accepted _ _ _); eexists; eexists; repeat split.
Qed.

End Notifier.

(** C8 (amended): [send_telegram] makes one call, never raises, changes
    nothing in the subscriber file, and returns [True] exactly when the
    call is answered with a status outside 400..599 -- so on every 2xx
    answer -- and [False] on a transport failure or a 4xx/5xx answer. *)
Theorem send_telegram_single_attempt
  (rt : builtins) (cfg : config) (w : world)
  (chat_id : json) (text : string) (st : state) :
  let req := send_message_request rt cfg chat_id text in
  let outcome := net w (List.length (calls st)) req in
  let run := send_telegram rt cfg w chat_id text st in
  calls (snd run) = calls st ++ [req]
  /\ subscr_file (snd run) = subscr_file st
  /\ (exists b, fst run = Ok b)
  /\ (fst run = Ok true <->
      exists r, outcome = Answered r /\ ~ (400 <= status_code r < 600))
  /\ (forall r, outcome = Answered r -> 200 <= status_code r < 300 ->
      fst run = Ok true)
  /\ (forall r, outcome = Answered r -> 400 <= status_code r < 600 ->
      fst run = Ok false)
  /\ (outcome = Unreachable -> fst run = Ok false).
Proof.
  cbv zeta. rewrite send_telegram_run. unfold accepted.
  destruct (net w _ _) as [|r] eqn:E.
  - cbn. repeat split; try discriminate; try (eexists; reflexivity).
    intros [r [H _]]; discriminate.
  - destruct (is_error_status (status_code r)) eqn:S; cbn.
    + repeat split; try discriminate; try (eexists; reflexivity).
      * intros [r' [H N]]. injection H as <-.
        apply is_error_status_spec in S. contradiction.
      * intros r' H R. injection H as <-.
        rewrite (success_is_no_error _ R) in S. discriminate.
    + repeat split; try discriminate; try (eexists; reflexivity).
      * intros _. exists r. split; [reflexivity|].
        intros N. apply is_error_status_spec in N. congruence.
      * intros r' H R. injection H as <-.
        apply is_error_status_spec in R. congruence.
Qed.

Lemma send_telegram_single_attempt_witness :
  let run a :=
    fst (send_telegram Sample.rt Sample.cfg (Sample.always a)
           (JInt 5) "ping" Sample.fresh) in
  run (Sample.answer 200 (Some (JObj [("ok", JBool true)]))) = Ok true
  /\ run (Sample.answer 403 (Some (JObj [("ok", JBool false)]))) = Ok false
  /\ run Unreachable = Ok false.
Proof.
  cbv zeta.
  pose proof (fun a =>
    send_telegram_single_attempt Sample.rt Sample.cfg (Sample.always a)
      (JInt 5) "ping" Sample.fresh) as P.
  cbv zeta in P.
  split; [|split].
  - eapply (proj1 (proj2 (proj2 (proj2 (proj2 (P _))))));
      [reflexivity|cbn; lia].
  - eapply (proj1 (proj2 (proj2 (proj2 (proj2 (proj2 (P _)))))));
      [reflexivity|cbn; lia].
  - apply (proj2 (proj2 (proj2 (proj2 (proj2 (proj2 (P _))))))).
    reflexivity.
Defined.

(** C8 (as stated) fails: a 304 answer is not a 2xx answer, and
    [send_telegram] returns [True] on it. *)
Lemma send_telegram_true_on_not_modified :
  let w := Sample.always (Sample.answer 304 None) in
  fst (send_telegram Sample.rt Sample.cfg w (JInt 5) "ping" Sample.fresh)
  = Ok true.
Proof. reflexivity. Qed.

(** ** The metrics client *)

Lemma py_eq_str v s : py_eq v (JStr s) = true <-> v = JStr s.
Proof.
  destruct v as [ | b | n | x | t | items | fields ]; cbn;
    try (split; discriminate).
  rewrite String.eqb_eq. split; congruence.
Qed.

Section MetricsClient.

Variable rt : builtins.
Variable cfg : config.
Variable w : world.

Lemma prom_query_run query st :
  let req := query_request rt cfg query in
  let st1 := with_call st req in
  let failed e := (Ok None, with_log st1 (QueryFailed e)) in
  prom_query rt cfg w query st =
    match net w (List.length (calls st)) req with
    | Unreachable => failed RequestException
    | Answered r =>
        if is_error_status (status_code r) then failed RequestException
        else match body_json r with
             | None => failed JSONDecodeError
             | Some data =>
                 match read_sample rt data with
                 | Ok v => (Ok v, st1)
                 | Raise e => failed e
                 end
             end
    end.
Proof.
  cbv zeta.
  unfold prom_query, try_except, bind, http, raise_for_status, response_json, lift.
  destruct (net w _ _) as [|r]; [reflexivity|].
  destruct (is_error_status (status_code r)); [reflexivity|]. cbn.
  destruct (body_json r) as [data|]; [|reflexivity]. cbn.
  destruct (read_sample rt data); reflexivity.
Qed.

Lemma prom_query_total query st :
  exists v st',
    prom_query rt cfg w query st = (Ok v, st')
    /\ subscr_file st' = subscr_file st
    /\ calls st' = calls st ++ [query_request rt cfg query].
Proof.
  rewrite prom_query_run.
  destruct (net w _ _) as [|r].
  - eexists; eexists; repeat split.
  - destruct (is_error_status _); [eexists; eexists; repeat split|].
    destruct (body_json r) as [data|]; [|eexists; eexists; repeat split].
    destruct (read_sample rt data); eexists; eexists; repeat split.
Qed.

End MetricsClient.

Lemma float_of_42_5 rt : py_float rt (JStr "42.5") = Ok Sample.f42_5.
Proof. vm_compute. reflexivity. Qed.

Lemma f42_5_is_85_halves : float_of_ratio false 85 2 = Sample.f42_5.
Proof. vm_compute. reflexivity. Qed.

(** C4: what [prom_query] returns, by the answer to its one call.  An
    answer without error status whose JSON has [status] equal to
    ["success"] and a first result with value pair [[ts, "42.5"]] gives the
    float 42.5.  A [status] other than ["success"], an empty result list, a
    transport failure, an error status, a body that is not JSON, and any
    body in which a field on the way to the sample is missing or of the
    wrong kind (reading it raises) all give [None]; no exception leaves
    the function. *)
Theorem prom_query_outcomes
  (rt : builtins) (cfg : config) (w : world) (query : string) (st : state) :
  let outcome := net w (List.length (calls st)) (query_request rt cfg query) in
  let returned := fst (prom_query rt cfg w query st) in
  (forall code fields dfields first rest ts,
      outcome = Answered {| status_code := code;
                            body_json := Some (JObj fields) |} ->
      is_error_status code = false ->
      dict_find "status" fields = Some (JStr "success") ->
      dict_find "data" fields = Some (JObj dfields) ->
      dict_find "result" dfields = Some (JArr (JObj first :: rest)) ->
      dict_find "value" first = Some (JArr [ts; JStr "42.5"]) ->
      returned = Ok (Some Sample.f42_5))
  /\ (forall code fields status,
      outcome = Answered {| status_code := code;
                            body_json := Some (JObj fields) |} ->
      dict_find "status" fields = Some status ->
      status <> JStr "success" ->
      returned = Ok None)
  /\ (forall code fields dfields,
      outcome = Answered {| status_code := code;
                            body_json := Some (JObj fields) |} ->
      dict_find "status" fields = Some (JStr "success") ->
      dict_find "data" fields = Some (JObj dfields) ->
      dict_find "result" dfields = Some (JArr []) ->
      returned = Ok None)
  /\ (outcome = Unreachable -> returned = Ok None)
  /\ (forall r, outcome = Answered r ->
      400 <= status_code r < 600 -> returned = Ok None)
  /\ (forall r, outcome = Answered r ->
      body_json r = None -> returned = Ok None)
  /\ (forall r data e, outcome = Answered r ->
      body_json r = Some data -> read_sample rt data = Raise e ->
      returned = Ok None)
  /\ (exists v, returned = Ok v).
Proof.
  cbv zeta. rewrite prom_query_run. cbv zeta.
  repeat split.
  - intros code fields dfields first rest ts E C Hs Hd Hr Hv.
    rewrite E. cbn. rewrite C.
    unfold read_sample. cbn. rewrite Hs. cbn. rewrite Hd. cbn.
    rewrite Hr. cbn. rewrite Hv.
    cbn [getitem_idx getitem_key nth_error rbind].
    rewrite float_of_42_5. reflexivity.
  - intros code fields status E Hs N.
    rewrite E. cbn. destruct (is_error_status code); [reflexivity|].
    unfold read_sample. cbn. rewrite Hs. cbn.
    destruct (py_eq status (JStr "success")) eqn:Q; [|reflexivity].
    apply py_eq_str in Q. contradiction.
  - intros code fields dfields E Hs Hd Hr.
    rewrite E. cbn. destruct (is_error_status code); [reflexivity|].
    unfold read_sample. cbn. rewrite Hs. cbn. rewrite Hd. cbn.
    rewrite Hr. reflexivity.
  - intros E. rewrite E. reflexivity.
  - intros r E C. rewrite E.
    apply is_error_status_spec in C. rewrite C. reflexivity.
  - intros r E B. rewrite E.
    destruct (is_error_status _); [reflexivity|]. rewrite B. reflexivity.
  - intros r data e E B R. rewrite E.
    destruct (is_error_status _); [reflexivity|]. rewrite B, R. reflexivity.
  - destruct (net w _ _) as [|r]; [eexists; reflexivity|].
    destruct (is_error_status _); [eexists; reflexivity|].
    destruct (body_json r) as [data|]; [|eexists; reflexivity].
    destruct (read_sample rt data); eexists; reflexivity.
Qed.

(** The cases of the theorem above on sample answers: one sample
    ["42.5"], a [status] of ["error"], an empty result list, no answer,
    a 503, a body that is not JSON, a body without [data]. *)
Lemma prom_query_outcomes_witness :
  let run a := fst (prom_query Sample.rt Sample.cfg (Sample.always a)
                      q_cpu Sample.fresh) in
  run (Sample.answer 200 (Some (Sample.sample_body (JStr "42.5"))))
    = Ok (Some Sample.f42_5)
  /\ run (Sample.answer 200 (Some (JObj [("status", JStr "error")]))) = Ok None
  /\ run (Sample.answer 200
            (Some (JObj [("status", JStr "success");
                         ("data", JObj [("result", JArr [])])]))) = Ok None
  /\ run Unreachable = Ok None
  /\ run (Sample.answer 503 None) = Ok None
  /\ run (Sample.answer 200 None) = Ok None
  /\ run (Sample.answer 200 (Some (JObj [("status", JStr "success")])))
     = Ok None.
Proof.
  cbv zeta.
  pose proof (fun a =>
    prom_query_outcomes Sample.rt Sample.cfg (Sample.always a)
      q_cpu Sample.fresh) as P.
  cbv zeta in P.
  split; [eapply (proj1 (P _)); reflexivity|].
  split; [eapply (proj1 (proj2 (P _)));
          [reflexivity|reflexivity|discriminate]|].
  split; [eapply (proj1 (proj2 (proj2 (P _)))); reflexivity|].
  split; [eapply (proj1 (proj2 (proj2 (proj2 (P _))))); reflexivity|].
  split; [eapply (proj1 (proj2 (proj2 (proj2 (proj2 (P _))))));
          [reflexivity|cbn; lia]|].
  split; [eapply (proj1 (proj2 (proj2 (proj2 (proj2 (proj2 (P _)))))));
          reflexivity|].
  eapply (proj1 (proj2 (proj2 (proj2 (proj2 (proj2 (proj2 (P _))))))));
    reflexivity.
Defined.

(** ** The report builder *)

Section Report.

Variable rt : builtins.
Variable cfg : config.
Variable w : world.

Lemma metric_line_of_value label short unit places v :
  float_is_zero v = false ->
  metric_line label short unit places (Some v)
  = (label ++ ": `" ++ format_fixed places v ++ unit ++ "`")%string.
Proof. intros H. unfold metric_line, sample_truthy. now rewrite H. Qed.

Lemma metric_line_of_zero label short unit places s :
  metric_line label short unit places (Some (S754_zero s))
  = (short ++ ": `N/A`")%string.
Proof. reflexivity. Qed.

Lemma metric_line_of_none label short unit places :
  metric_line label short unit places None = (short ++ ": `N/A`")%string.
Proof. reflexivity. Qed.

(** The report never raises, leaves the subscriber file alone, and is the
    five lines in their order, built from what the five queries return. *)
Lemma build_status_text_run st :
  exists cpu mem disk rx tx st1 st2 st3 st4 st5,
    prom_query rt cfg w q_cpu st = (Ok cpu, st1)
    /\ prom_query rt cfg w q_mem st1 = (Ok mem, st2)
    /\ prom_query rt cfg w q_disk st2 = (Ok disk, st3)
    /\ prom_query rt cfg w q_net_rx st3 = (Ok rx, st4)
    /\ prom_query rt cfg w q_net_tx st4 = (Ok tx, st5)
    /\ build_status_text rt cfg w st
       = (Ok (join newline (status_lines w cpu mem disk rx tx)), st5)
    /\ subscr_file st5 = subscr_file st.
Proof.
  destruct (prom_query_total rt cfg w q_cpu st) as (cpu & st1 & E1 & F1 & _).
  destruct (prom_query_total rt cfg w q_mem st1) as (mem & st2 & E2 & F2 & _).
  destruct (prom_query_total rt cfg w q_disk st2) as (disk & st3 & E3 & F3 & _).
  destruct (prom_query_total rt cfg w q_net_rx st3) as (rx & st4 & E4 & F4 & _).
  destruct (prom_query_total rt cfg w q_net_tx st4) as (tx & st5 & E5 & F5 & _).
  exists cpu, mem, disk, rx, tx, st1, st2, st3, st4, st5.
  repeat (split; [assumption|]).
  split; [|congruence].
  unfold build_status_text.
  rewrite (bind_ok _ _ _ _ _ E1), (bind_ok _ _ _ _ _ E2),
    (bind_ok _ _ _ _ _ E3), (bind_ok _ _ _ _ _ E4), (bind_ok _ _ _ _ _ E5).
  reflexivity.
Qed.

End Report.

(** C1 (the code departs from it): a query that returns zero is shown
    as [N/A], as if it had returned nothing.  With a backend that answers
    every query, the receive rate being exactly zero, both network queries
    return a value and the report still ends with the network line as
    [N/A]; and so it is for any metric reading zero. *)
Theorem status_report_hides_zero_rate :
  let run_query q :=
    fst (prom_query Sample.rt Sample.cfg Sample.idle_link q Sample.fresh) in
  run_query q_net_rx = Ok (Some (S754_zero false))
  /\ run_query q_net_tx = Ok (Some Sample.f42_5)
  /\ fst (build_status_text Sample.rt Sample.cfg Sample.idle_link Sample.fresh)
     = Ok (join newline
             [ "*Status report — 2024-01-01T00:00:00 UTC*";
               "CPU: `42.5%`";
               "Memory used: `42.5%`";
               "Disk free (root): `42.5%`";
               "Network: `N/A`" ])%string
  /\ (forall s tx, network_line (Some (S754_zero s)) tx = "Network: `N/A`"%string)
  /\ (forall s, metric_line "Disk free (root)" "Disk" "%" 1 (Some (S754_zero s))
                = "Disk: `N/A`"%string).
Proof.
  cbv zeta.
  split; [vm_compute; reflexivity|].
  split; [vm_compute; reflexivity|].
  split; [vm_compute; reflexivity|].
  split.
  - intros s [tx|]; reflexivity.
  - intros s. reflexivity.
Qed.

(** ** The inbound-message hook *)

(** One character of a prefix test under hypothesis [H]. *)
Ltac match_char H t :=
  destruct t as [|? t]; [discriminate H|];
  cbn [prefix] in H |- *;
  match type of H with
  | context [ascii_dec ?a ?b] =>
      destruct (ascii_dec a b) as [<-|]; [|discriminate H]
  end;
  cbn.

Lemma start_is_not_status t :
  startswith t "/start" = true -> startswith t "/status" = false.
Proof.
  unfold startswith. intros H. do 5 (match_char H t). reflexivity.
Qed.

Lemma stop_is_not_status_or_start t :
  startswith t "/stop" = true ->
  startswith t "/status" = false /\ startswith t "/start" = false.
Proof.
  unfold startswith. intros H. do 4 (match_char H t). split; reflexivity.
Qed.

Lemma py_match_valid_refl c : valid_chat_id c = true -> py_match c c = true.
Proof.
  destruct c; try discriminate; intros _; cbn.
  - apply Z.eqb_refl.
  - apply String.eqb_refl.
Qed.

(** The literal [NaN] is equal to nothing and still found in a list that
    holds it, and taken out of it. *)
Example nan_entry_is_matched :
  let nan := JFloat S754_nan in
  py_eq nan nan = false
  /\ py_in nan (JArr [JInt 3; nan]) = Ok true
  /\ py_remove (JArr [JInt 3; nan]) nan = Ok (JArr [JInt 3]).
Proof. cbv zeta. repeat split. Qed.

Lemma remove_first_listed c l :
  listed c l = true -> exists l', remove_first c l = Some l'.
Proof.
  induction l as [|x l IH]; cbn; [discriminate|].
  destruct (py_match x c); cbn; [eexists; reflexivity|].
  intros H. destruct (IH H) as [l' ->]. eexists; reflexivity.
Qed.

Lemma remove_first_not_listed c l :
  listed c l = false -> remove_first c l = None.
Proof.
  induction l as [|x l IH]; cbn; [reflexivity|].
  destruct (py_match x c); cbn; [discriminate|].
  intros H. now rewrite (IH H).
Qed.

Lemma remove_first_appended c l :
  listed c l = false -> py_match c c = true ->
  remove_first c (l ++ [c]) = Some l.
Proof.
  intros H R. induction l as [|x l IH]; cbn.
  - now rewrite R.
  - cbn in H. destruct (py_match x c); [discriminate|].
    cbn in H. now rewrite (IH H).
Qed.

(** [l.remove(c)] takes out the first item equal to [c] and nothing else. *)
Lemma remove_first_split c l l' :
  remove_first c l = Some l' ->
  exists before x after,
    l = before ++ x :: after
    /\ listed c before = false
    /\ py_match x c = true
    /\ l' = before ++ after.
Proof.
  revert l'. induction l as [|y l IH]; cbn; [discriminate|].
  intros l'. destruct (py_match y c) eqn:E.
  - intros [= <-]. exists [], y, l. repeat split; assumption.
  - destruct (remove_first c l) as [r|]; [|discriminate].
    intros [= <-]. destruct (IH r eq_refl) as (b & x & a & -> & Hb & Hx & ->).
    exists (y :: b), x, a. repeat split; try assumption.
    cbn. now rewrite E.
Qed.

Lemma occurrences_app c l1 l2 :
  occurrences c (l1 ++ l2) = (occurrences c l1 + occurrences c l2)%nat.
Proof. unfold occurrences. now rewrite filter_app, length_app. Qed.

Lemma not_listed_no_occurrence c l :
  listed c l = false -> occurrences c l = 0%nat.
Proof.
  unfold occurrences. induction l as [|x l IH]; cbn; [reflexivity|].
  destruct (py_match x c); cbn; [discriminate|]. exact IH.
Qed.

Lemma occurrence_listed c l :
  (0 < occurrences c l)%nat -> listed c l = true.
Proof.
  intros H. destruct (listed c l) eqn:E; [reflexivity|].
  rewrite (not_listed_no_occurrence _ _ E) in H. lia.
Qed.

(** One [if text.startswith(...)] test of [handle_command], decided by
    the equation [E]. *)
Ltac test_prefix E :=
  unfold bind at 1; cbn [lift text_startswith]; rewrite E.

Section MessageHook.

Variable rt : builtins.
Variable cfg : config.
Variable w : world.

Lemma load_subscribers_run st :
  load_subscribers st = (Ok (subscribers st), st).
Proof.
  unfold load_subscribers, subscribers, bind, read_file.
  destruct (subscr_file st); reflexivity.
Qed.

Lemma telegram_webhook_reads data c text st :
  read_update data = Ok (Some (c, text)) ->
  telegram_webhook rt cfg w (Some data) st = handle_command rt cfg w c text st.
Proof.
  intros H. unfold telegram_webhook, bind, get_json, ret, lift.
  now rewrite H.
Qed.

(** [/start]: the greeting goes out, then the sender is appended when
    not listed. *)
Lemma handle_start_run c t st subs :
  startswith t "/start" = true ->
  subscribers st = JArr subs ->
  exists st',
    handle_command rt cfg w c (JStr t) st
    = ((if listed c subs then Ok ack else ack_after_write (disk w)), st')
    /\ calls st' = calls st ++ [send_message_request rt cfg c greeting]
    /\ subscr_file st'
       = (if listed c subs then subscr_file st
          else written (disk w) (subscr_file st) (JArr (subs ++ [c]))).
Proof.
  intros Ht Hs.
  destruct (send_telegram_total rt cfg w c greeting st)
    as (b & st1 & E & F & C).
  unfold handle_command.
  test_prefix (start_is_not_status _ Ht). test_prefix Ht.
  rewrite (bind_ok _ _ _ _ _ E).
  rewrite (bind_ok _ _ _ _ _ (load_subscribers_run st1)).
  assert (Hs1 : subscribers st1 = JArr subs)
    by (unfold subscribers in *; now rewrite F).
  rewrite Hs1. unfold bind at 1. cbn [lift py_in]. fold (listed c subs).
  destruct (listed c subs); cbn [negb].
  - exists st1. repeat split; assumption.
  - exists (with_file st1 (written (disk w) (subscr_file st1)
                             (JArr (subs ++ [c])))).
    unfold bind, lift, py_append, save_subscribers, write_file,
      ack_after_write, ret.
    split; [destruct (disk w); reflexivity|].
    split; [exact C|]. cbn [with_file subscr_file]. now rewrite F.
Qed.

(** [/stop]: the sender's first entry is taken out when listed and the
    list saved, then the confirmation goes out. *)
Lemma handle_stop_run c t st subs :
  startswith t "/stop" = true ->
  subscribers st = JArr subs ->
  exists st',
    handle_command rt cfg w c (JStr t) st
    = (match remove_first c subs with
       | Some _ => ack_after_write (disk w)
       | None => Ok ack
       end, st')
    /\ subscr_file st'
       = match remove_first c subs with
         | Some subs' => written (disk w) (subscr_file st) (JArr subs')
         | None => subscr_file st
         end
    /\ calls st'
       = match remove_first c subs, disk w with
         | Some _, (Refused | Torn) => calls st
         | _, _ => calls st ++ [send_message_request rt cfg c farewell]
         end.
Proof.
  intros Ht Hs.
  destruct (stop_is_not_status_or_start _ Ht) as [N1 N2].
  unfold handle_command.
  test_prefix N1. test_prefix N2. test_prefix Ht.
  rewrite (bind_ok _ _ _ _ _ (load_subscribers_run st)).
  rewrite Hs. unfold bind at 1. cbn [lift py_in]. fold (listed c subs).
  destruct (listed c subs) eqn:L.
  - destruct (remove_first_listed _ _ L) as [subs' R]. rewrite R.
    unfold bind at 1. unfold bind at 1. cbn [lift py_remove]. rewrite R.
    unfold save_subscribers, write_file, ack_after_write.
    destruct (disk w) eqn:D; cbn [written].
    + destruct (send_telegram_total rt cfg w c farewell
                  (with_file st (Some (JArr subs'))))
        as (b & st1 & E & F & C).
      exists st1. rewrite (bind_ok _ _ _ _ _ E).
      repeat split; assumption.
    + eexists. repeat split.
    + eexists. repeat split.
  - rewrite (remove_first_not_listed _ _ L).
    destruct (send_telegram_total rt cfg w c farewell st)
      as (b & st1 & E & F & C).
    exists st1. unfold bind, ret. rewrite E.
    repeat split; assumption.
Qed.

(** What [/start] and [/stop] leave in the subscriber file, whatever the
    file holds. *)
Lemma handle_start_file c t st :
  startswith t "/start" = true ->
  subscr_file (snd (handle_command rt cfg w c (JStr t) st)) =
    match py_in c (subscribers st) with
    | Ok false =>
        match py_append (subscribers st) c with
        | Ok subs' => written (disk w) (subscr_file st) subs'
        | Raise _ => subscr_file st
        end
    | _ => subscr_file st
    end.
Proof.
  intros Ht.
  destruct (send_telegram_total rt cfg w c greeting st)
    as (b & st1 & E & F & _).
  unfold handle_command.
  test_prefix (start_is_not_status _ Ht). test_prefix Ht.
  rewrite (bind_ok _ _ _ _ _ E).
  rewrite (bind_ok _ _ _ _ _ (load_subscribers_run st1)).
  assert (Hs1 : subscribers st1 = subscribers st)
    by (unfold subscribers; now rewrite F).
  rewrite Hs1. unfold bind at 1. unfold lift at 1.
  destruct (py_in c (subscribers st)) as [[|]|e]; cbn [negb snd];
    try exact F.
  unfold bind, lift, save_subscribers, write_file.
  destruct (py_append (subscribers st) c); cbn [snd]; [|exact F].
  destruct (disk w); cbn [snd with_file subscr_file written];
    first [reflexivity | exact F].
Qed.

Lemma handle_stop_file c t st :
  startswith t "/stop" = true ->
  subscr_file (snd (handle_command rt cfg w c (JStr t) st)) =
    match py_in c (subscribers st) with
    | Ok true =>
        match py_remove (subscribers st) c with
        | Ok subs' => written (disk w) (subscr_file st) subs'
        | Raise _ => subscr_file st
        end
    | _ => subscr_file st
    end.
Proof.
  intros Ht.
  destruct (stop_is_not_status_or_start _ Ht) as [N1 N2].
  unfold handle_command.
  test_prefix N1. test_prefix N2. test_prefix Ht.
  rewrite (bind_ok _ _ _ _ _ (load_subscribers_run st)).
  unfold bind at 1. unfold lift at 1.
  destruct (py_in c (subscribers st)) as [[|]|e]; [| |reflexivity].
  - unfold bind at 1. unfold bind at 1. unfold lift at 1.
    destruct (py_remove (subscribers st) c) as [subs'|e]; [|reflexivity].
    unfold save_subscribers, write_file.
    destruct (disk w); cbn [written]; try reflexivity.
    destruct (send_telegram_total rt cfg w c farewell
                (with_file st (Some subs'))) as (b & st1 & E & F & _).
    rewrite (bind_ok _ _ _ _ _ E). exact F.
  - unfold bind at 1. unfold ret at 1.
    destruct (send_telegram_total rt cfg w c farewell st)
      as (b & st1 & E & F & _).
    rewrite (bind_ok _ _ _ _ _ E). exact F.
Qed.

End MessageHook.

(** C2 (the code departs from it): a message without [chat], or with a
    [chat] without [id], makes the handler raise [KeyError], in every
    configuration, world and state; the client receives an error page with
    status 500 and no JSON acknowledgement. *)
Theorem telegram_webhook_raises_without_chat
  (rt : builtins) (cfg : config) (w : world) (st : state) :
  let no_chat := Some (JObj [("message", JObj [("text", JStr "/start")])]) in
  let no_id := Some (JObj [("message", JObj [("chat", JObj []);
                                             ("text", JStr "/start")])]) in
  telegram_webhook rt cfg w no_chat st = (Raise KeyError, st)
  /\ telegram_webhook rt cfg w no_id st = (Raise KeyError, st)
  /\ flask_response (fst (telegram_webhook rt cfg w no_chat st))
     = {| reply_status := 500; reply_body := ErrorPage |}.
Proof. repeat split. Qed.

(** For a message that carries a chat and a text, and a subscriber file
    that is missing or holds a list and can be written, the handler
    acknowledges. *)
Lemma telegram_webhook_acknowledges
  (rt : builtins) (cfg : config) (w : world)
  (data c : json) (t : string) (st : state) (subs : list json) :
  read_update data = Ok (Some (c, JStr t)) ->
  subscribers st = JArr subs ->
  disk w = Written ->
  fst (telegram_webhook rt cfg w (Some data) st) = Ok ack.
Proof.
  intros Hr Hs Hd. rewrite (telegram_webhook_reads _ _ _ _ _ _ _ Hr).
  destruct (startswith t "/status") eqn:T1.
  - unfold handle_command. test_prefix T1.
    destruct (build_status_text_run rt cfg w st)
      as (cpu & mem & dsk & rx & tx & s1 & s2 & s3 & s4 & s5
          & _ & _ & _ & _ & _ & E & _).
    rewrite (bind_ok _ _ _ _ _ E).
    destruct (send_telegram_total rt cfg w c
                (join newline (status_lines w cpu mem dsk rx tx)) s5)
      as (b & s6 & E' & _).
    rewrite (bind_ok _ _ _ _ _ E'). reflexivity.
  - destruct (startswith t "/start") eqn:T2.
    + destruct (handle_start_run rt cfg w c t st subs T2 Hs) as (st' & -> & _).
      rewrite Hd. cbn [fst ack_after_write]. now destruct (listed c subs).
    + destruct (startswith t "/stop") eqn:T3.
      * destruct (handle_stop_run rt cfg w c t st subs T3 Hs) as (st' & -> & _).
        rewrite Hd. cbn [fst ack_after_write].
        now destruct (remove_first c subs).
      * unfold handle_command.
        test_prefix T1. test_prefix T2. test_prefix T3.
        destruct (send_telegram_total rt cfg w c unknown_command st)
          as (b & s1 & E & _).
        rewrite (bind_ok _ _ _ _ _ E). reflexivity.
Qed.

(** A store that is not a list is never appended to. *)
Lemma py_append_only_lists subs c subs' :
  py_append subs c = Ok subs' -> exists l, subs = JArr l.
Proof. destruct subs; try discriminate. intros _. eexists; reflexivity. Qed.

(** C3 (amended): for a valid chat identifier and any initial store in
    which that chat is not already listed, a [/start] message followed by
    a [/stop] message from that chat, the writes of the store going
    through, leaves the subscribers read from the store as they were
    before the [/start]. *)
Theorem start_then_stop_restores
  (rt : builtins) (cfg : config) (w1 w2 : world)
  (c data1 data2 : json) (st : state) :
  valid_chat_id c = true ->
  command_from "/start" c data1 ->
  command_from "/stop" c data2 ->
  py_in c (subscribers st) <> Ok true ->
  disk w1 = Written ->
  disk w2 = Written ->
  let st1 := snd (telegram_webhook rt cfg w1 (Some data1) st) in
  let st2 := snd (telegram_webhook rt cfg w2 (Some data2) st1) in
  subscribers st2 = subscribers st.
Proof.
  intros V (t1 & R1 & T1) (t2 & R2 & T2) Hin D1 D2. cbv zeta.
  rewrite (telegram_webhook_reads _ _ _ _ _ _ _ R1).
  set (st1 := snd (handle_command rt cfg w1 c (JStr t1) st)).
  rewrite (telegram_webhook_reads _ _ _ _ _ _ _ R2).
  set (st2 := snd (handle_command rt cfg w2 c (JStr t2) st1)).
  pose proof (handle_start_file rt cfg w1 c t1 st T1) as F1. fold st1 in F1.
  pose proof (handle_stop_file rt cfg w2 c t2 st1 T2) as F2. fold st2 in F2.
  rewrite D1 in F1. rewrite D2 in F2. cbn [written] in F1, F2.
  assert (Same : subscr_file st1 = subscr_file st -> subscribers st2 = subscribers st).
  { intros E.
    assert (S1 : subscribers st1 = subscribers st)
      by (unfold subscribers; now rewrite E).
    rewrite S1 in F2.
    destruct (py_in c (subscribers st)) as [[|]|e];
      [contradiction| |];
      unfold subscribers at 1; rewrite F2, E; reflexivity. }
  destruct (py_in c (subscribers st)) as [[|]|e] eqn:P;
    [contradiction| |exact (Same F1)].
  destruct (py_append (subscribers st) c) as [subs'|e] eqn:A;
    [|exact (Same F1)].
  destruct (py_append_only_lists _ _ _ A) as [subs Hs].
  rewrite Hs in A, P. cbn in A, P. injection A as <-. injection P as P.
  fold (listed c subs) in P.
  assert (S1 : subscribers st1 = JArr (subs ++ [c]))
    by (unfold subscribers; now rewrite F1).
  rewrite S1 in F2. cbn [py_in py_remove] in F2.
  fold (listed c (subs ++ [c])) in F2.
  rewrite (remove_first_appended _ _ P (py_match_valid_refl _ V)) in F2.
  assert (L : listed c (subs ++ [c]) = true).
  { unfold listed. rewrite existsb_app. cbn.
    rewrite (py_match_valid_refl _ V). now rewrite orb_true_r. }
  rewrite L in F2. unfold subscribers at 1. now rewrite F2.
Qed.

Lemma start_then_stop_restores_witness :
  let serve st text :=
    snd (telegram_webhook Sample.rt Sample.cfg
           (Sample.always Unreachable)
           (Some (Sample.update (JInt 5) text)) st) in
  subscribers (serve (serve (Sample.holding [JInt 3]) "/start") "/stop")
  = subscribers (Sample.holding [JInt 3]).
Proof.
  cbv zeta.
  apply (start_then_stop_restores Sample.rt Sample.cfg
           (Sample.always Unreachable) (Sample.always Unreachable)
           (JInt 5) (Sample.update (JInt 5) "/start")
           (Sample.update (JInt 5) "/stop")
           (Sample.holding [JInt 3])).
  - reflexivity.
  - exists "/start"%string. split; reflexivity.
  - exists "/stop"%string. split; reflexivity.
  - discriminate.
  - reflexivity.
  - reflexivity.
Defined.

(** C3 (as stated) fails: for a chat that is already subscribed, [/start]
    changes nothing and [/stop] then removes the chat, so the store ends
    without an entry it had before the [/start]. *)
Lemma start_then_stop_drops_subscriber :
  let serve st text :=
    snd (telegram_webhook Sample.rt Sample.cfg
           (Sample.always (Sample.answer 200 None))
           (Some (Sample.update (JInt 5) text)) st) in
  let before := Sample.holding [JInt 5] in
  let after := serve (serve before "/start") "/stop" in
  subscr_file before = Some (JArr [JInt 5])
  /\ subscr_file after = Some (JArr []).
Proof. split; reflexivity. Qed.

(** C7: once a chat identifier is in the subscriber store, any number of
    further [/start] messages from that chat leaves the stored list as it
    is -- no entry is added, so none is repeated, and the order is kept;
    and on a stored list a single [/start] writes the list with the
    sender appended at the end exactly when it is not listed, which,
    the write going through, is then the stored list. *)
Theorem repeated_start_adds_nothing
  (rt : builtins) (cfg : config) (c : json) :
  (forall (requests : list (world * json)) (st : state),
      Forall (fun r => command_from "/start" c (snd r)) requests ->
      py_in c (subscribers st) = Ok true ->
      subscr_file (serve_updates rt cfg requests st) = subscr_file st)
  /\ (forall (w : world) (data : json) (st : state) (subs : list json),
      command_from "/start" c data ->
      subscribers st = JArr subs ->
      let subs' := if listed c subs then subs else subs ++ [c] in
      let st' := snd (telegram_webhook rt cfg w (Some data) st) in
      subscr_file st'
      = (if listed c subs then subscr_file st
         else written (disk w) (subscr_file st) (JArr (subs ++ [c])))
      /\ (disk w = Written -> subscribers st' = JArr subs')
      /\ (occurrences c subs <= 1 -> occurrences c subs' <= 1)%nat).
Proof.
  split.
  - intros requests. induction requests as [|[w data] rest IH];
      intros st Hall Hin; [reflexivity|].
    inversion Hall as [|? ? (t & R & T) Hrest]; subst. cbn [snd] in R.
    cbn [serve_updates].
    rewrite (telegram_webhook_reads _ _ _ _ _ _ _ R).
    pose proof (handle_start_file rt cfg w c t st T) as F.
    rewrite Hin in F.
    set (st1 := snd (handle_command rt cfg w c (JStr t) st)) in *.
    assert (S1 : subscribers st1 = subscribers st)
      by (unfold subscribers; now rewrite F).
    rewrite (IH st1 Hrest); [exact F|now rewrite S1].
  - intros w data st subs (t & R & T) Hs. cbv zeta.
    rewrite (telegram_webhook_reads _ _ _ _ _ _ _ R).
    destruct (handle_start_run rt cfg w c t st subs T Hs) as (st' & -> & _ & F).
    cbn [snd]. split; [exact F|]. split.
    + intros D. unfold subscribers at 1. rewrite F, D.
      destruct (listed c subs); [exact Hs|reflexivity].
    + destruct (listed c subs) eqn:L; [trivial|].
      intros _. rewrite occurrences_app, (not_listed_no_occurrence _ _ L).
      unfold occurrences. cbn. destruct (py_match c c); cbn; lia.
Qed.

Lemma repeated_start_adds_nothing_witness :
  let hello text := (Sample.always Unreachable, Sample.update (JInt 5) text) in
  let st := Sample.holding [JInt 3; JInt 5; JInt 8] in
  subscr_file
    (serve_updates Sample.rt Sample.cfg
       [hello "/start"; hello "/start again"; hello "/start"] st)
  = subscr_file st
  /\ subscribers
       (snd (telegram_webhook Sample.rt Sample.cfg (Sample.always Unreachable)
               (Some (Sample.update (JInt 9) "/start")) st))
     = JArr [JInt 3; JInt 5; JInt 8; JInt 9].
Proof.
  cbv zeta. split.
  - apply (proj1 (repeated_start_adds_nothing Sample.rt Sample.cfg (JInt 5))).
    + repeat constructor; eexists; split; reflexivity.
    + reflexivity.
  - apply (proj2 (repeated_start_adds_nothing Sample.rt Sample.cfg (JInt 9))
             (Sample.always Unreachable) (Sample.update (JInt 9) "/start")
             (Sample.holding [JInt 3; JInt 5; JInt 8])
             [JInt 3; JInt 5; JInt 8]).
    + eexists; split; reflexivity.
    + reflexivity.
    + reflexivity.
Defined.

(** C10 (amended): when the stored list holds a chat identifier more than
    once, one [/stop] message from that chat takes out the first such
    entry only, so that, the save going through, the identifier is still
    in the saved list.  The one message sent is the confirmation to that
    chat, whether or not the identifier is listed -- unless it is listed
    and saving the list fails: then the handler raises [OSError] and
    sends nothing. *)
Theorem stop_removes_first_entry_only
  (rt : builtins) (cfg : config) (w : world)
  (c data : json) (st : state) (subs : list json) :
  command_from "/stop" c data ->
  subscribers st = JArr subs ->
  let run := telegram_webhook rt cfg w (Some data) st in
  let confirmation := send_message_request rt cfg c farewell in
  carries confirmation c farewell
  /\ (listed c subs = false ->
      fst run = Ok ack
      /\ calls (snd run) = calls st ++ [confirmation]
      /\ subscr_file (snd run) = subscr_file st)
  /\ (listed c subs = true -> disk w = Written ->
      fst run = Ok ack
      /\ calls (snd run) = calls st ++ [confirmation])
  /\ (listed c subs = true -> disk w <> Written ->
      fst run = Raise OSError
      /\ calls (snd run) = calls st)
  /\ ((2 <= occurrences c subs)%nat -> disk w = Written ->
      exists before x after,
        subs = before ++ x :: after
        /\ listed c before = false
        /\ py_match x c = true
        /\ subscr_file (snd run) = Some (JArr (before ++ after))
        /\ py_in c (JArr (before ++ after)) = Ok true).
Proof.
  intros (t & R & T) Hs. cbv zeta.
  rewrite (telegram_webhook_reads _ _ _ _ _ _ _ R).
  destruct (handle_stop_run rt cfg w c t st subs T Hs) as (st' & -> & F & C).
  cbn [fst snd].
  split; [split; reflexivity|].
  split; [|split; [|split]].
  - intros L. rewrite (remove_first_not_listed _ _ L) in *.
    repeat split; assumption.
  - intros L D. destruct (remove_first_listed _ _ L) as [subs' Rm].
    rewrite Rm, D in *. split; [reflexivity|exact C].
  - intros L D. destruct (remove_first_listed _ _ L) as [subs' Rm].
    rewrite Rm in *. destruct (disk w); [contradiction| |];
      (split; [reflexivity|exact C]).
  - intros Hocc D.
    assert (L : listed c subs = true) by (apply occurrence_listed; lia).
    destruct (remove_first_listed _ _ L) as [subs' Rm].
    rewrite Rm, D in F. cbn [written] in F.
    destruct (remove_first_split _ _ _ Rm) as (b & x & a & -> & Hb & Hx & ->).
    exists b, x, a. repeat split; try assumption.
    cbn [py_in]. f_equal. fold (listed c (b ++ a)).
    apply occurrence_listed.
    rewrite occurrences_app in Hocc |- *.
    rewrite (not_listed_no_occurrence _ _ Hb) in Hocc |- *.
    unfold occurrences in Hocc. cbn [filter] in Hocc. rewrite Hx in Hocc.
    cbn [List.length] in Hocc. fold (occurrences c a) in Hocc. lia.
Qed.

Lemma stop_removes_first_entry_only_witness :
  let run w subs :=
    telegram_webhook Sample.rt Sample.cfg w
      (Some (Sample.update (JInt 5) "/stop")) (Sample.holding subs) in
  let confirmation :=
    send_message_request Sample.rt Sample.cfg (JInt 5) farewell in
  let up := Sample.always Unreachable in
  let down := Sample.read_only Unreachable in
  carries confirmation (JInt 5) farewell
  /\ (fst (run up [JInt 3]) = Ok ack
      /\ calls (snd (run up [JInt 3])) = [confirmation]
      /\ subscr_file (snd (run up [JInt 3])) = Some (JArr [JInt 3]))
  /\ (fst (run up [JInt 5; JInt 3; JInt 5]) = Ok ack
      /\ calls (snd (run up [JInt 5; JInt 3; JInt 5])) = [confirmation])
  /\ (fst (run down [JInt 5; JInt 3; JInt 5]) = Raise OSError
      /\ calls (snd (run down [JInt 5; JInt 3; JInt 5])) = [])
  /\ exists before x after,
       [JInt 5; JInt 3; JInt 5] = before ++ x :: after
       /\ listed (JInt 5) before = false
       /\ py_match x (JInt 5) = true
       /\ subscr_file (snd (run up [JInt 5; JInt 3; JInt 5]))
          = Some (JArr (before ++ after))
       /\ py_in (JInt 5) (JArr (before ++ after)) = Ok true.
Proof.
  cbv zeta.
  pose proof (fun w subs =>
    stop_removes_first_entry_only Sample.rt Sample.cfg w (JInt 5)
      (Sample.update (JInt 5) "/stop") (Sample.holding subs) subs
      (ex_intro _ "/stop"%string (conj eq_refl eq_refl)) eq_refl) as P.
  cbv zeta in P.
  split; [exact (proj1 (P (Sample.always Unreachable) [JInt 3]))|].
  split; [apply (proj1 (proj2 (P (Sample.always Unreachable) [JInt 3])));
          reflexivity|].
  split; [apply (proj1 (proj2 (proj2
            (P (Sample.always Unreachable) [JInt 5; JInt 3; JInt 5]))));
          reflexivity|].
  split; [apply (proj1 (proj2 (proj2 (proj2
            (P (Sample.read_only Unreachable) [JInt 5; JInt 3; JInt 5])))));
          [reflexivity|discriminate]|].
  apply (proj2 (proj2 (proj2 (proj2
           (P (Sample.always Unreachable) [JInt 5; JInt 3; JInt 5])))));
    [cbn; lia|reflexivity].
Defined.

(** C10 (as stated) fails: with the chat listed and a subscriber file
    that cannot be written, [/stop] raises [OSError] out of the handler
    before the confirmation: no message is sent, and the list is as it
    was. *)
Lemma stop_without_confirmation_when_save_fails :
  let run :=
    telegram_webhook Sample.rt Sample.cfg
      (Sample.read_only (Sample.answer 200 None))
      (Some (Sample.update (JInt 5) "/stop"))
      (Sample.holding [JInt 5; JInt 3; JInt 5]) in
  fst run = Raise OSError
  /\ calls (snd run) = []
  /\ subscr_file (snd run) = Some (JArr [JInt 5; JInt 3; JInt 5]).
Proof. cbv zeta. split; [|split]; reflexivity. Qed.

(** ** The inbound-alert hook *)

Section AlertHook.

Variable rt : builtins.
Variable cfg : config.
Variable w : world.

(** Sending one text to each item of a list: a call per item, in order. *)
Lemma deliver_all text items st :
  exists st',
    for_each items (fun c => send_telegram rt cfg w c text) st = (Ok tt, st')
    /\ subscr_file st' = subscr_file st
    /\ calls st' = calls st
                   ++ map (fun c => send_message_request rt cfg c text) items.
Proof.
  revert st. induction items as [|c rest IH]; intros st.
  - exists st. cbn. rewrite app_nil_r. repeat split.
  - destruct (send_telegram_total rt cfg w c text st) as (b & st1 & E & F & C).
    destruct (IH st1) as (st2 & E2 & F2 & C2).
    exists st2. cbn [for_each]. rewrite (bind_ok _ _ _ _ _ E).
    split; [exact E2|]. split; [congruence|].
    rewrite C2, C. cbn [map]. now rewrite <- app_assoc.
Qed.

Lemma grafana_webhook_run body st :
  grafana_webhook rt cfg w body st =
    match body with
    | None => (Raise BadRequest, st)
    | Some JNull => (Ok (jsonify_with (JObj [("ok", JBool false)]) 400), st)
    | Some payload =>
        match render_alert rt payload with
        | Raise e => (Raise e, st)
        | Ok text =>
            match py_iter (recipients cfg (subscribers st)) with
            | Raise e => (Raise e, st)
            | Ok targets =>
                (Ok ack,
                 snd (for_each targets
                        (fun c => send_telegram rt cfg w c text) st))
            end
        end
    end.
Proof.
  destruct body as [payload|]; [|reflexivity].
  assert (Tail : forall k : M reply,
    k = (text <- lift (render_alert rt payload) ;;
         subs <- load_subscribers ;;
         targets <- lift (py_iter (recipients cfg subs)) ;;
         for_each targets (fun c => send_telegram rt cfg w c text) ;;
         ret ack) ->
    k st =
      match render_alert rt payload with
      | Raise e => (Raise e, st)
      | Ok text =>
          match py_iter (recipients cfg (subscribers st)) with
          | Raise e => (Raise e, st)
          | Ok targets =>
              (Ok ack,
               snd (for_each targets
                      (fun c => send_telegram rt cfg w c text) st))
          end
      end).
  { intros k ->. unfold bind at 1. unfold lift at 1.
    destruct (render_alert rt payload) as [text|e]; [|reflexivity].
    rewrite (bind_ok _ _ _ _ _ (load_subscribers_run st)).
    unfold bind at 1. unfold lift at 1.
    destruct (py_iter (recipients cfg (subscribers st))) as [targets|e];
      [|reflexivity].
    destruct (deliver_all text targets st) as (st' & E & _).
    rewrite (bind_ok _ _ _ _ _ E). rewrite E. reflexivity. }
  destruct payload; try (apply Tail; reflexivity).
  reflexivity.
Qed.

Lemma grafana_webhook_rendered payload text st :
  render_alert rt payload = Ok text ->
  grafana_webhook rt cfg w (Some payload) st =
    match py_iter (recipients cfg (subscribers st)) with
    | Raise e => (Raise e, st)
    | Ok targets =>
        (Ok ack,
         snd (for_each targets (fun c => send_telegram rt cfg w c text) st))
    end.
Proof.
  intros R. rewrite grafana_webhook_run.
  destruct payload; try (now rewrite R).
  discriminate R.
Qed.

End AlertHook.

Lemma send_message_request_chat rt cfg c c' text :
  send_message_request rt cfg c text = send_message_request rt cfg c' text ->
  c = c'.
Proof. unfold send_message_request. intros H. now injection H. Qed.

(** C5: for a payload the handler renders to [text], with a stored list
    that is empty and a fallback recipient that is not false, the one
    call made sends [text] to the fallback recipient; with a stored list
    that is not empty, the calls made send [text] to its entries, one
    call per entry in order, and to nobody else -- to the fallback
    recipient only if it is itself listed.  The call [to c] is the post
    of the message with chat [c], text [text] and Markdown parse mode. *)
Theorem alert_recipients
  (rt : builtins) (cfg : config) (w : world)
  (payload : json) (text : string) (st : state) :
  render_alert rt payload = Ok text ->
  let run := grafana_webhook rt cfg w (Some payload) st in
  let to c := send_message_request rt cfg c text in
  (subscribers st = JArr [] ->
   truthy (ADMIN_CHAT_ID cfg) = true ->
   fst run = Ok ack
   /\ calls (snd run) = calls st ++ [to (ADMIN_CHAT_ID cfg)])
  /\ (forall subs,
      subscribers st = JArr subs ->
      subs <> [] ->
      fst run = Ok ack
      /\ calls (snd run) = calls st ++ map to subs
      /\ (~ In (ADMIN_CHAT_ID cfg) subs ->
          ~ In (to (ADMIN_CHAT_ID cfg)) (map to subs)))
  /\ (forall c, carries (to c) c text).
Proof.
  intros R. cbv zeta. rewrite (grafana_webhook_rendered _ _ _ _ _ _ R).
  split; [|split].
  - intros Hs Ha.
    destruct (deliver_all rt cfg w text [ADMIN_CHAT_ID cfg] st)
      as (st' & E & _ & C).
    rewrite Hs. unfold recipients. cbn [truthy negb andb].
    rewrite Ha. cbn [py_iter]. rewrite E.
    split; [reflexivity|exact C].
  - intros subs Hs Hne.
    destruct (deliver_all rt cfg w text subs st) as (st' & E & _ & C).
    assert (T : recipients cfg (JArr subs) = JArr subs).
    { unfold recipients. destruct subs; [contradiction|reflexivity]. }
    rewrite Hs, T. cbn [py_iter]. rewrite E.
    split; [reflexivity|]. split; [exact C|].
    intros Hnot Hin. apply in_map_iff in Hin.
    destruct Hin as (c & Hc & Hin).
    apply send_message_request_chat in Hc. subst c. contradiction.
  - intros c. split; reflexivity.
Qed.

Example render_high_cpu rt :
  render_alert rt Sample.high_cpu = Ok Sample.high_cpu_text.
Proof. reflexivity. Qed.

Lemma alert_recipients_witness :
  let run st :=
    grafana_webhook Sample.rt Sample.cfg (Sample.always Unreachable)
      (Some Sample.high_cpu) st in
  let to c := send_message_request Sample.rt Sample.cfg c Sample.high_cpu_text in
  (fst (run Sample.fresh) = Ok ack
   /\ calls (snd (run Sample.fresh)) = [to (JStr "632306300")])
  /\ (fst (run (Sample.holding [JInt 3; JInt 5])) = Ok ack
      /\ calls (snd (run (Sample.holding [JInt 3; JInt 5])))
         = [to (JInt 3); to (JInt 5)]
      /\ ~ In (to (JStr "632306300")) [to (JInt 3); to (JInt 5)])
  /\ carries (to (JInt 3)) (JInt 3) Sample.high_cpu_text.
Proof.
  cbv zeta.
  pose proof (fun st =>
    alert_recipients Sample.rt Sample.cfg (Sample.always Unreachable)
      Sample.high_cpu Sample.high_cpu_text st
      (render_high_cpu Sample.rt)) as P.
  cbv zeta in P.
  split; [|split].
  - apply (proj1 (P Sample.fresh)); reflexivity.
  - destruct (proj1 (proj2 (P (Sample.holding [JInt 3; JInt 5])))
                [JInt 3; JInt 5] eq_refl) as (A & B & C); [discriminate|].
    split; [exact A|]. split; [exact B|].
    apply C. cbn. intros [H|[H|[]]]; discriminate H.
  - exact (proj2 (proj2 (P Sample.fresh)) (JInt 3)).
Defined.

(** C9: whatever the body, the world and the state, the alert hook
    leaves the subscriber file as it found it; in particular the fallback
    recipient is never written to it. *)
Theorem grafana_webhook_keeps_file
  (rt : builtins) (cfg : config) (w : world)
  (body : option json) (st : state) :
  subscr_file (snd (grafana_webhook rt cfg w body st)) = subscr_file st.
Proof.
  rewrite grafana_webhook_run.
  destruct body as [payload|]; [|reflexivity].
  assert (Tail :
    subscr_file
      (snd match render_alert rt payload with
           | Raise e => (Raise e, st)
           | Ok text =>
               match py_iter (recipients cfg (subscribers st)) with
               | Raise e => (Raise e, st)
               | Ok targets =>
                   (Ok ack,
                    snd (for_each targets
                           (fun c => send_telegram rt cfg w c text) st))
               end
           end) = subscr_file st).
  { destruct (render_alert rt payload) as [text|e]; [|reflexivity].
    destruct (py_iter _) as [targets|e]; [|reflexivity].
    destruct (deliver_all rt cfg w text targets st) as (st' & E & F & _).
    rewrite E. exact F. }
  destruct payload; exact Tail.
Qed.

(** ** Registering the webhook *)

(** C6 (amended): for a body that is a JSON object, when [url] is absent
    or false (empty, [null], zero, ...) the handler answers 400 with
    [{"error": "url required"}] and makes no call; when [url] is present
    and not false it makes one call, posting [{"url": url}] to the
    platform, and when that call is answered with a JSON body it relays
    this JSON. *)
Theorem set_webhook_contract
  (rt : builtins) (cfg : config) (w : world)
  (fields : list (string * json)) (st : state) :
  let run := set_webhook rt cfg w (Some (JObj fields)) st in
  let url := match dict_find "url" fields with
             | Some u => u
             | None => JNull
             end in
  let req := set_webhook_request rt cfg url in
  (truthy url = false ->
   run = (Ok (jsonify_with (JObj [("error", JStr "url required")]) 400), st))
  /\ (truthy url = true ->
      calls (snd run) = calls st ++ [req]
      /\ req_json req = Some (JObj [("url", url)])
      /\ forall code j,
           net w (List.length (calls st)) req
           = Answered {| status_code := code; body_json := Some j |} ->
           fst run = Ok (jsonify j)).
Proof.
  cbv zeta.
  set (url := match dict_find "url" fields with Some u => u | None => JNull end).
  assert (Run : set_webhook rt cfg w (Some (JObj fields)) st =
    if truthy url
    then (r <- http w (set_webhook_request rt cfg url) ;;
          j <- response_json r ;; ret (jsonify j)) st
    else (Ok (jsonify_with (JObj [("error", JStr "url required")]) 400), st)).
  { unfold set_webhook. unfold bind at 1. cbn [get_json ret].
    unfold bind at 1. cbn [lift py_get]. subst url.
    destruct (dict_find "url" fields) as [u|]; [|reflexivity].
    destruct (truthy u); reflexivity. }
  rewrite Run. clear Run.
  split.
  - intros F. rewrite F. reflexivity.
  - intros T. rewrite T.
    unfold bind, http, response_json.
    destruct (net w _ _) as [|r] eqn:E.
    + repeat split. intros code j H. discriminate H.
    + destruct (body_json r) as [j|] eqn:B; repeat split.
      * intros code j' [= H]. subst r. cbn in B. injection B as ->.
        reflexivity.
      * intros code j' [= H]. subst r. discriminate B.
Qed.

Lemma set_webhook_contract_witness :
  let relay := JObj [("ok", JBool true); ("result", JBool true)] in
  let w := Sample.always (Sample.answer 200 (Some relay)) in
  let hook := JStr "https://bot.example/telegram_webhook" in
  set_webhook Sample.rt Sample.cfg w (Some (JObj [])) Sample.fresh
  = (Ok (jsonify_with (JObj [("error", JStr "url required")]) 400),
     Sample.fresh)
  /\ calls (snd (set_webhook Sample.rt Sample.cfg w
                   (Some (JObj [("url", hook)])) Sample.fresh))
     = [set_webhook_request Sample.rt Sample.cfg hook]
  /\ fst (set_webhook Sample.rt Sample.cfg w
            (Some (JObj [("url", hook)])) Sample.fresh)
     = Ok (jsonify relay).
Proof.
  cbv zeta. split.
  - apply (proj1 (set_webhook_contract Sample.rt Sample.cfg _ [] Sample.fresh)).
    reflexivity.
  - destruct (proj2 (set_webhook_contract Sample.rt Sample.cfg
                       (Sample.always (Sample.answer 200
                          (Some (JObj [("ok", JBool true);
                                       ("result", JBool true)]))))
                       [("url", JStr "https://bot.example/telegram_webhook")]
                       Sample.fresh) eq_refl) as (A & _ & B).
    split; [exact A|]. eapply B. reflexivity.
Defined.

(** C6 (as stated) fails: a body that contains [url] with an empty
    string is answered 400 and nothing is forwarded; a body with [url]
    whose call does not get through makes the handler raise; and a body
    that is a JSON array makes it raise as well, which the client sees as
    a 500. *)
Lemma set_webhook_rejects_empty_url :
  set_webhook Sample.rt Sample.cfg
    (Sample.always (Sample.answer 200 (Some (JObj [("ok", JBool true)]))))
    (Some (JObj [("url", JStr EmptyString)])) Sample.fresh
  = (Ok (jsonify_with (JObj [("error", JStr "url required")]) 400),
     Sample.fresh)
  /\ fst (set_webhook Sample.rt Sample.cfg (Sample.always Unreachable)
            (Some (JObj [("url", JStr "https://bot.example/hook")]))
            Sample.fresh)
     = Raise RequestException
  /\ set_webhook Sample.rt Sample.cfg (Sample.always Unreachable)
       (Some (JArr [])) Sample.fresh
     = (Raise AttributeError, Sample.fresh).
Proof. repeat split. Qed.

(* ================================================================== *)
(** * Further properties of the handlers *)
(* ================================================================== *)

Import Shape.

(** ** Reading an update *)

Lemma read_update_object fields :
  read_update (JObj fields) =
    let message := py_or (field fields "message")
                         (field fields "edited_message") in
    if negb (truthy message) then Ok None else
    rbind (getitem_key message "chat") (fun chat =>
    rbind (getitem_key chat "id") (fun chat_id =>
    rbind (py_get message "text" (JStr EmptyString)) (fun text =>
    Ok (Some (chat_id, text))))).
Proof.
  unfold read_update, field, py_or. cbn [py_get rbind].
  destruct (dict_find "message" fields) as [m|]; cbn [rbind].
  - destruct (truthy m); cbn [rbind]; [reflexivity|].
    destruct (dict_find "edited_message" fields); reflexivity.
  - cbn [truthy]. destruct (dict_find "edited_message" fields); reflexivity.
Qed.

(** X1: an update that carries neither a message nor an edited message
    (both absent, [null] or otherwise false) is acknowledged at once:
    nothing is sent, the file and the log stay as they are. *)
Theorem update_without_message_is_acknowledged
  (rt : builtins) (cfg : config) (w : world)
  (fields : list (string * json)) (st : state) :
  truthy (field fields "message") = false ->
  truthy (field fields "edited_message") = false ->
  telegram_webhook rt cfg w (Some (JObj fields)) st = (Ok ack, st).
Proof.
  intros Hm He. unfold telegram_webhook, bind, get_json, ret, lift.
  rewrite read_update_object. cbv zeta. unfold py_or.
  rewrite Hm, He. reflexivity.
Qed.

Lemma update_without_message_is_acknowledged_witness :
  telegram_webhook Sample.rt Sample.cfg (Sample.always Unreachable)
    (Some (JObj [("update_id", JInt 1); ("message", JNull);
                 ("channel_post", JObj [("text", JStr "/start")])]))
    (Sample.holding [JInt 3])
  = (Ok ack, Sample.holding [JInt 3]).
Proof.
  apply update_without_message_is_acknowledged; reflexivity.
Defined.

(** X2: the handler looks at one message per update, [message] when it
    is there and not false, [edited_message] otherwise; everything else
    in the update is ignored.  So an update is handled exactly as the
    update that carries that message alone. *)
Theorem edited_message_stands_in
  (rt : builtins) (cfg : config) (w : world)
  (fields : list (string * json)) (st : state) :
  let chosen := py_or (field fields "message")
                      (field fields "edited_message") in
  telegram_webhook rt cfg w (Some (JObj fields)) st
  = telegram_webhook rt cfg w (Some (JObj [("message", chosen)])) st.
Proof.
  cbv zeta. unfold telegram_webhook, bind, get_json, ret, lift.
  rewrite !read_update_object. cbv zeta.
  set (chosen := py_or (field fields "message") (field fields "edited_message")).
  assert (E : py_or (field [("message", chosen)] "message")
                (field [("message", chosen)] "edited_message")
              = if truthy chosen then chosen else JNull).
  { unfold field, py_or. cbn. reflexivity. }
  rewrite E. destruct (truthy chosen) eqn:T; cbn [negb truthy].
  - rewrite T. reflexivity.
  - reflexivity.
Qed.

(** ** The commands, one by one *)

Section Commands.

Variable rt : builtins.
Variable cfg : config.
Variable w : world.

(** The report asks its five queries in order, whatever they return. *)
Lemma build_status_text_effect st :
  exists text st',
    build_status_text rt cfg w st = (Ok text, st')
    /\ subscr_file st' = subscr_file st
    /\ calls st' = calls st ++ map (query_request rt cfg) status_queries.
Proof.
  destruct (prom_query_total rt cfg w q_cpu st) as (cpu & st1 & E1 & F1 & C1).
  destruct (prom_query_total rt cfg w q_mem st1) as (mem & st2 & E2 & F2 & C2).
  destruct (prom_query_total rt cfg w q_disk st2) as (disk & st3 & E3 & F3 & C3).
  destruct (prom_query_total rt cfg w q_net_rx st3) as (rx & st4 & E4 & F4 & C4).
  destruct (prom_query_total rt cfg w q_net_tx st4) as (tx & st5 & E5 & F5 & C5).
  exists (join newline (status_lines w cpu mem disk rx tx)), st5.
  split; [|split].
  - unfold build_status_text.
    rewrite (bind_ok _ _ _ _ _ E1), (bind_ok _ _ _ _ _ E2),
      (bind_ok _ _ _ _ _ E3), (bind_ok _ _ _ _ _ E4), (bind_ok _ _ _ _ _ E5).
    reflexivity.
  - congruence.
  - rewrite C5, C4, C3, C2, C1. unfold status_queries. cbn [map].
    now rewrite <- !app_assoc.
Qed.

Lemma handle_status_run c t st :
  startswith t "/status" = true ->
  exists text st1 b st2,
    build_status_text rt cfg w st = (Ok text, st1)
    /\ send_telegram rt cfg w c text st1 = (Ok b, st2)
    /\ handle_command rt cfg w c (JStr t) st = (Ok ack, st2).
Proof.
  intros T.
  destruct (build_status_text_effect st) as (text & st1 & E & _).
  destruct (send_telegram_total rt cfg w c text st1) as (b & st2 & E' & _).
  exists text, st1, b, st2. split; [exact E|]. split; [exact E'|].
  unfold handle_command. test_prefix T.
  rewrite (bind_ok _ _ _ _ _ E), (bind_ok _ _ _ _ _ E'). reflexivity.
Qed.

Lemma no_command_spec t :
  no_command t = true ->
  startswith t "/status" = false /\ startswith t "/start" = false
  /\ startswith t "/stop" = false.
Proof.
  unfold no_command. rewrite !andb_true_iff, !negb_true_iff. tauto.
Qed.

Lemma handle_unknown_run c t st :
  no_command t = true ->
  exists b st1,
    send_telegram rt cfg w c unknown_command st = (Ok b, st1)
    /\ handle_command rt cfg w c (JStr t) st = (Ok ack, st1).
Proof.
  intros N. destruct (no_command_spec _ N) as (T1 & T2 & T3).
  destruct (send_telegram_total rt cfg w c unknown_command st)
    as (b & st1 & E & _).
  exists b, st1. split; [exact E|].
  unfold handle_command. test_prefix T1. test_prefix T2. test_prefix T3.
  rewrite (bind_ok _ _ _ _ _ E). reflexivity.
Qed.

Lemma handle_not_text c text st :
  is_text text = false ->
  handle_command rt cfg w c text st = (Raise AttributeError, st).
Proof. destruct text; try discriminate; reflexivity. Qed.

(** The calls [/start] makes, whatever the store holds: the greeting. *)
Lemma handle_start_calls c t st :
  startswith t "/start" = true ->
  calls (snd (handle_command rt cfg w c (JStr t) st))
  = calls st ++ [send_message_request rt cfg c greeting].
Proof.
  intros Ht.
  destruct (send_telegram_total rt cfg w c greeting st)
    as (b & st1 & E & F & C).
  unfold handle_command.
  test_prefix (start_is_not_status _ Ht). test_prefix Ht.
  rewrite (bind_ok _ _ _ _ _ E).
  rewrite (bind_ok _ _ _ _ _ (load_subscribers_run st1)).
  unfold bind at 1. unfold lift at 1.
  destruct (py_in c (subscribers st1)) as [[|]|e]; cbn [negb snd];
    try exact C.
  unfold bind, lift, save_subscribers, write_file.
  destruct (py_append (subscribers st1) c); cbn [snd]; [|exact C].
  destruct (disk w); exact C.
Qed.

(** The calls [/stop] makes, whatever the store holds: the confirmation,
    unless looking the sender up or taking it out raises. *)
Lemma handle_stop_calls c t st :
  startswith t "/stop" = true ->
  exists r st',
    handle_command rt cfg w c (JStr t) st = (r, st')
    /\ (calls st' = calls st
        \/ calls st' = calls st ++ [send_message_request rt cfg c farewell]).
Proof.
  intros Ht.
  destruct (stop_is_not_status_or_start _ Ht) as [N1 N2].
  unfold handle_command.
  test_prefix N1. test_prefix N2. test_prefix Ht.
  rewrite (bind_ok _ _ _ _ _ (load_subscribers_run st)).
  unfold bind at 1. unfold lift at 1.
  destruct (py_in c (subscribers st)) as [[|]|e];
    [| |eexists; eexists; split; [reflexivity|left; reflexivity]].
  - unfold bind at 1. unfold bind at 1. unfold lift at 1.
    destruct (py_remove (subscribers st) c) as [subs'|e];
      [|eexists; eexists; split; [reflexivity|left; reflexivity]].
    unfold save_subscribers, write_file.
    destruct (send_telegram_total rt cfg w c farewell
                (with_file st (written (disk w) (subscr_file st) subs')))
      as (b & st1 & E & F & C).
    destruct (disk w);
      [|eexists; eexists; split; [reflexivity|left; reflexivity]..].
    rewrite (bind_ok _ _ _ _ _ E).
    eexists; eexists; split; [reflexivity|right; exact C].
  - unfold bind at 1. unfold ret at 1.
    destruct (send_telegram_total rt cfg w c farewell st)
      as (b & st1 & E & F & C).
    rewrite (bind_ok _ _ _ _ _ E).
    eexists; eexists; split; [reflexivity|right; exact C].
Qed.

End Commands.

(** X3: a message that carries a chat and a text is acknowledged with
    [{"ok": true}] and status 200, whatever the command, whatever the
    backend and the platform answer, provided the subscriber file is
    missing, unreadable or holds a list, and can be written. *)
Theorem text_message_is_acknowledged
  (rt : builtins) (cfg : config) (w : world)
  (data c : json) (t : string) (st : state) (subs : list json) :
  read_update data = Ok (Some (c, JStr t)) ->
  subscribers st = JArr subs ->
  disk w = Written ->
  flask_response (fst (telegram_webhook rt cfg w (Some data) st))
  = {| reply_status := 200;
       reply_body := JsonBody (JObj [("ok", JBool true)]) |}.
Proof.
  intros R S D.
  now rewrite (telegram_webhook_acknowledges rt cfg w data c t st subs R S D).
Qed.

Lemma text_message_is_acknowledged_witness :
  flask_response
    (fst (telegram_webhook Sample.rt Sample.cfg (Sample.always Unreachable)
            (Some (Sample.update (JInt 5) "/status now")) Sample.fresh))
  = {| reply_status := 200;
       reply_body := JsonBody (JObj [("ok", JBool true)]) |}.
Proof.
  apply (text_message_is_acknowledged Sample.rt Sample.cfg
           (Sample.always Unreachable)
           (Sample.update (JInt 5) "/status now") (JInt 5) "/status now"
           Sample.fresh []); reflexivity.
Defined.

(** X4: on [/status] the handler asks the backend its five queries, in
    the order CPU, memory, disk, receive, transmit, then sends the report
    it built to the sender, and does nothing else: six calls, no write
    to the subscriber file. *)
Theorem status_command_calls
  (rt : builtins) (cfg : config) (w : world)
  (data c : json) (t : string) (st : state) :
  read_update data = Ok (Some (c, JStr t)) ->
  startswith t "/status" = true ->
  let run := telegram_webhook rt cfg w (Some data) st in
  exists report,
    fst (build_status_text rt cfg w st) = Ok report
    /\ fst run = Ok ack
    /\ calls (snd run)
       = calls st ++ map (query_request rt cfg) status_queries
         ++ [send_message_request rt cfg c report]
    /\ carries (send_message_request rt cfg c report) c report
    /\ subscr_file (snd run) = subscr_file st.
Proof.
  intros R T. cbv zeta. rewrite (telegram_webhook_reads _ _ _ _ _ _ _ R).
  destruct (handle_status_run rt cfg w c t st T)
    as (report & st1 & b & st2 & E & E' & ->).
  destruct (build_status_text_effect rt cfg w st)
    as (report' & st1' & Ee & F & C).
  rewrite E in Ee. injection Ee as <- <-.
  destruct (send_telegram_total rt cfg w c report st1)
    as (b' & st2' & Es & F' & C').
  rewrite E' in Es. injection Es as <- <-.
  exists report. rewrite E. cbn [fst snd].
  split; [reflexivity|]. split; [reflexivity|].
  split; [|split; [split; reflexivity|congruence]].
  rewrite C', C. now rewrite <- app_assoc.
Qed.

Lemma status_command_calls_witness :
  let run :=
    telegram_webhook Sample.rt Sample.cfg Sample.idle_link
      (Some (Sample.update (JInt 5) "/status")) (Sample.holding [JInt 3]) in
  exists report,
    fst (build_status_text Sample.rt Sample.cfg Sample.idle_link
           (Sample.holding [JInt 3])) = Ok report
    /\ fst run = Ok ack
    /\ calls (snd run)
       = map (query_request Sample.rt Sample.cfg) status_queries
         ++ [send_message_request Sample.rt Sample.cfg (JInt 5) report]
    /\ carries (send_message_request Sample.rt Sample.cfg (JInt 5) report)
         (JInt 5) report
    /\ subscr_file (snd run) = Some (JArr [JInt 3]).
Proof.
  cbv zeta.
  apply (status_command_calls Sample.rt Sample.cfg Sample.idle_link
           (Sample.update (JInt 5) "/status") (JInt 5) "/status"
           (Sample.holding [JInt 3])); reflexivity.
Defined.

(** X5: a text that starts with none of [/status], [/start], [/stop]
    gets the one reply that the command is not recognised; nothing is
    asked of the backend and the subscriber file is not touched. *)
Theorem unknown_command_reply
  (rt : builtins) (cfg : config) (w : world)
  (data c : json) (t : string) (st : state) :
  read_update data = Ok (Some (c, JStr t)) ->
  no_command t = true ->
  let run := telegram_webhook rt cfg w (Some data) st in
  fst run = Ok ack
  /\ calls (snd run)
     = calls st ++ [send_message_request rt cfg c unknown_command]
  /\ carries (send_message_request rt cfg c unknown_command)
       c unknown_command
  /\ subscr_file (snd run) = subscr_file st.
Proof.
  intros R N. cbv zeta. rewrite (telegram_webhook_reads _ _ _ _ _ _ _ R).
  destruct (send_telegram_total rt cfg w c unknown_command st)
    as (b & st1 & E & F & C).
  destruct (handle_unknown_run rt cfg w c t st N) as (b' & st1' & E' & ->).
  rewrite E in E'. injection E' as <- <-.
  split; [reflexivity|]. split; [exact C|].
  split; [split; reflexivity|exact F].
Qed.

Lemma unknown_command_reply_witness :
  let run :=
    telegram_webhook Sample.rt Sample.cfg (Sample.always Unreachable)
      (Some (Sample.update (JInt 5) "hello /start"))
      (Sample.holding [JInt 3]) in
  fst run = Ok ack
  /\ calls (snd run)
     = [send_message_request Sample.rt Sample.cfg (JInt 5) unknown_command]
  /\ carries
       (send_message_request Sample.rt Sample.cfg (JInt 5) unknown_command)
       (JInt 5) unknown_command
  /\ subscr_file (snd run) = Some (JArr [JInt 3]).
Proof.
  cbv zeta.
  apply (unknown_command_reply Sample.rt Sample.cfg (Sample.always Unreachable)
           (Sample.update (JInt 5) "hello /start") (JInt 5) "hello /start"
           (Sample.holding [JInt 3])); reflexivity.
Defined.

(** X6: a message without [text] (a photo, a sticker, ...) is read as
    the empty text and so gets the reply that the command is not
    recognised. *)
Theorem message_without_text_reply
  (rt : builtins) (cfg : config) (w : world)
  (fields mfields cfields : list (string * json)) (c : json) (st : state) :
  field fields "message" = JObj mfields ->
  dict_find "chat" mfields = Some (JObj cfields) ->
  dict_find "id" cfields = Some c ->
  dict_find "text" mfields = None ->
  let run := telegram_webhook rt cfg w (Some (JObj fields)) st in
  fst run = Ok ack
  /\ calls (snd run)
     = calls st ++ [send_message_request rt cfg c unknown_command]
  /\ carries (send_message_request rt cfg c unknown_command)
       c unknown_command.
Proof.
  intros Hm Hc Hi Ht. cbv zeta.
  assert (R : read_update (JObj fields) = Ok (Some (c, JStr EmptyString))).
  { rewrite read_update_object. cbv zeta. unfold py_or. rewrite Hm.
    destruct mfields as [|kv rest]; [discriminate Hc|].
    cbn [truthy negb getitem_key py_get rbind].
    rewrite Hc. cbn [rbind getitem_key]. rewrite Hi. cbn [rbind].
    rewrite Ht. reflexivity. }
  rewrite (telegram_webhook_reads _ _ _ _ _ _ _ R).
  destruct (send_telegram_total rt cfg w c unknown_command st)
    as (b & st1 & E & F & C).
  destruct (handle_unknown_run rt cfg w c EmptyString st eq_refl)
    as (b' & st1' & E' & ->).
  rewrite E in E'. injection E' as <- <-.
  split; [reflexivity|]. split; [exact C|split; reflexivity].
Qed.

Lemma message_without_text_reply_witness :
  let photo :=
    JObj [("update_id", JInt 9);
          ("message", JObj [("chat", JObj [("id", JInt 5)]);
                            ("photo", JArr [JObj [("file_id", JStr "f")]])])] in
  let run :=
    telegram_webhook Sample.rt Sample.cfg (Sample.always Unreachable)
      (Some photo) Sample.fresh in
  fst run = Ok ack
  /\ calls (snd run)
     = [send_message_request Sample.rt Sample.cfg (JInt 5) unknown_command]
  /\ carries
       (send_message_request Sample.rt Sample.cfg (JInt 5) unknown_command)
       (JInt 5) unknown_command.
Proof.
  cbv zeta.
  apply (message_without_text_reply Sample.rt Sample.cfg
           (Sample.always Unreachable)
           [("update_id", JInt 9);
            ("message", JObj [("chat", JObj [("id", JInt 5)]);
                              ("photo", JArr [JObj [("file_id", JStr "f")]])])]
           [("chat", JObj [("id", JInt 5)]);
            ("photo", JArr [JObj [("file_id", JStr "f")]])]
           [("id", JInt 5)] (JInt 5) Sample.fresh); reflexivity.
Defined.

(** X7: a message whose [text] is not a string (a number, [null], a
    list) makes the handler raise [AttributeError] before anything is
    sent or written. *)
Theorem text_that_is_no_string_raises
  (rt : builtins) (cfg : config) (w : world)
  (data c text : json) (st : state) :
  read_update data = Ok (Some (c, text)) ->
  is_text text = false ->
  telegram_webhook rt cfg w (Some data) st = (Raise AttributeError, st).
Proof.
  intros R T. rewrite (telegram_webhook_reads _ _ _ _ _ _ _ R).
  now apply handle_not_text.
Qed.

Lemma text_that_is_no_string_raises_witness :
  telegram_webhook Sample.rt Sample.cfg (Sample.always Unreachable)
    (Some (JObj [("message", JObj [("chat", JObj [("id", JInt 5)]);
                                   ("text", JNull)])]))
    (Sample.holding [JInt 3])
  = (Raise AttributeError, Sample.holding [JInt 3]).
Proof.
  apply (text_that_is_no_string_raises Sample.rt Sample.cfg
           (Sample.always Unreachable) _ (JInt 5) JNull); reflexivity.
Defined.

(** The three prefix tests leave four cases. *)
Lemma command_cases t :
  startswith t "/status" = true
  \/ startswith t "/start" = true
  \/ startswith t "/stop" = true
  \/ no_command t = true.
Proof.
  unfold no_command.
  destruct (startswith t "/status"); [now left|].
  destruct (startswith t "/start"); [now right; left|].
  destruct (startswith t "/stop"); [now right; right; left|].
  now right; right; right.
Qed.

(** X8: the inbound-message hook writes the subscriber file only for a
    text that starts with [/start] or [/stop]; every other request, also
    one that makes it raise, leaves the file as it was. *)
Theorem only_subscription_commands_write
  (rt : builtins) (cfg : config) (w : world)
  (body : option json) (st : state) :
  subscr_file (snd (telegram_webhook rt cfg w body st)) = subscr_file st
  \/ exists data c t,
       body = Some data
       /\ read_update data = Ok (Some (c, JStr t))
       /\ (startswith t "/start" = true \/ startswith t "/stop" = true).
Proof.
  destruct body as [data|]; [|left; reflexivity].
  destruct (read_update data) as [[[c text]|]|e] eqn:R.
  - rewrite (telegram_webhook_reads _ _ _ _ _ _ _ R).
    destruct (is_text text) eqn:T.
    + destruct text as [ | | | | t | | ]; try discriminate T.
      destruct (command_cases t) as [H|[H|[H|H]]].
      * left.
        destruct (handle_status_run rt cfg w c t st H)
          as (report & st1 & b & st2 & E & E' & ->).
        destruct (build_status_text_effect rt cfg w st)
          as (report' & st1' & Ee & F & _).
        rewrite E in Ee. injection Ee as <- <-.
        destruct (send_telegram_total rt cfg w c report st1)
          as (b' & st2' & Es & F' & _).
        rewrite E' in Es. injection Es as <- <-.
        cbn [snd]. congruence.
      * right. exists data, c, t. auto.
      * right. exists data, c, t. auto.
      * left.
        destruct (handle_unknown_run rt cfg w c t st H) as (b & st1 & E & ->).
        destruct (send_telegram_total rt cfg w c unknown_command st)
          as (b' & st1' & Es & F & _).
        rewrite E in Es. injection Es as <- <-. exact F.
    + left. now rewrite handle_not_text.
  - left. unfold telegram_webhook, bind, get_json, ret, lift. now rewrite R.
  - left. unfold telegram_webhook, bind, get_json, ret, lift. now rewrite R.
Qed.

(** X9: whatever the command and whatever the store holds, every message
    the inbound-message hook posts goes to the chat the update came from:
    a command never makes the bot write to another chat. *)
Theorem commands_answer_the_sender_only
  (rt : builtins) (cfg : config) (w : world)
  (data c text : json) (st : state) :
  read_update data = Ok (Some (c, text)) ->
  exists sent,
    calls (snd (telegram_webhook rt cfg w (Some data) st)) = calls st ++ sent
    /\ Forall (fun r => req_method r = POST ->
                        exists body, r = send_message_request rt cfg c body)
         sent.
Proof.
  intros R. rewrite (telegram_webhook_reads _ _ _ _ _ _ _ R).
  assert (Sender : forall body,
    req_method (send_message_request rt cfg c body) = POST ->
    exists body', send_message_request rt cfg c body
                  = send_message_request rt cfg c body')
    by (intros body _; now exists body).
  destruct (is_text text) eqn:T.
  - destruct text as [ | | | | t | | ]; try discriminate T.
    destruct (command_cases t) as [H|[H|[H|H]]].
    + destruct (handle_status_run rt cfg w c t st H)
        as (report & st1 & b & st2 & E & E' & ->).
      destruct (build_status_text_effect rt cfg w st)
        as (report' & st1' & Ee & _ & C).
      rewrite E in Ee. injection Ee as <- <-.
      destruct (send_telegram_total rt cfg w c report st1)
        as (b' & st2' & Es & _ & C').
      rewrite E' in Es. injection Es as <- <-.
      exists (map (query_request rt cfg) status_queries
              ++ [send_message_request rt cfg c report]).
      cbn [snd]. split; [rewrite C', C; now rewrite <- app_assoc|].
      apply Forall_app. split.
      * apply Forall_forall. intros r Hr. apply in_map_iff in Hr.
        destruct Hr as (q & <- & _). discriminate.
      * constructor; [apply Sender|constructor].
    + exists [send_message_request rt cfg c greeting].
      split; [now apply handle_start_calls|].
      constructor; [apply Sender|constructor].
    + destruct (handle_stop_calls rt cfg w c t st H) as (r & st' & -> & [C|C]).
      * exists []. cbn [snd]. rewrite app_nil_r. split; [exact C|constructor].
      * exists [send_message_request rt cfg c farewell].
        split; [exact C|]. constructor; [apply Sender|constructor].
    + destruct (handle_unknown_run rt cfg w c t st H) as (b & st1 & E & ->).
      destruct (send_telegram_total rt cfg w c unknown_command st)
        as (b' & st1' & Es & _ & C).
      rewrite E in Es. injection Es as <- <-.
      exists [send_message_request rt cfg c unknown_command].
      split; [exact C|]. constructor; [apply Sender|constructor].
  - exists []. rewrite handle_not_text by exact T. cbn [snd].
    rewrite app_nil_r. split; [reflexivity|constructor].
Qed.

Lemma commands_answer_the_sender_only_witness :
  exists sent,
    calls (snd (telegram_webhook Sample.rt Sample.cfg Sample.idle_link
                  (Some (Sample.update (JInt 5) "/stop"))
                  (Sample.holding [JInt 3; JInt 5; JInt 8])))
    = calls (Sample.holding [JInt 3; JInt 5; JInt 8]) ++ sent
    /\ Forall (fun r => req_method r = POST ->
                        exists body,
                          r = send_message_request Sample.rt Sample.cfg
                                (JInt 5) body)
         sent.
Proof.
  apply (commands_answer_the_sender_only Sample.rt Sample.cfg Sample.idle_link
           (Sample.update (JInt 5) "/stop") (JInt 5) (JStr "/stop")).
  reflexivity.
Defined.

(** ** Subscribing and unsubscribing *)

Lemma no_occurrence_not_listed c l :
  occurrences c l = 0%nat -> listed c l = false.
Proof.
  unfold occurrences. induction l as [|x l IH]; cbn; [reflexivity|].
  destruct (py_match x c); cbn; [discriminate|]. exact IH.
Qed.

Lemma listed_app c l1 l2 :
  listed c (l1 ++ l2) = listed c l1 || listed c l2.
Proof. unfold listed. apply existsb_app. Qed.

(** [/start] messages from a listed chat leave the file alone. *)
Lemma starts_from_listed_chat rt cfg c requests st :
  Forall (fun r => command_from "/start" c (snd r)) requests ->
  py_in c (subscribers st) = Ok true ->
  subscr_file (serve_updates rt cfg requests st) = subscr_file st.
Proof.
  revert st. induction requests as [|[w data] rest IH];
    intros st Hall Hin; [reflexivity|].
  inversion Hall as [|? ? (t & R & T) Hrest]; subst. cbn [snd] in R.
  cbn [serve_updates]. rewrite (telegram_webhook_reads _ _ _ _ _ _ _ R).
  pose proof (handle_start_file rt cfg w c t st T) as F.
  rewrite Hin in F.
  set (st1 := snd (handle_command rt cfg w c (JStr t) st)) in *.
  assert (S1 : subscribers st1 = subscribers st)
    by (unfold subscribers; now rewrite F).
  rewrite (IH st1 Hrest); [exact F|now rewrite S1].
Qed.

(** X10: subscribing is idempotent.  For a valid chat identifier and a
    stored list, one or more [/start] messages from that chat leave the
    list with the chat in it, appended once at the end if it was not
    there and untouched otherwise -- as a single [/start] does --
    provided the write the first of them makes for a chat that is not
    listed goes through. *)
Theorem start_is_idempotent
  (rt : builtins) (cfg : config) (c : json)
  (first : world * json) (more : list (world * json))
  (st : state) (subs : list json) :
  valid_chat_id c = true ->
  Forall (fun r => command_from "/start" c (snd r)) (first :: more) ->
  subscribers st = JArr subs ->
  listed c subs = true \/ disk (fst first) = Written ->
  let after := subscribers (serve_updates rt cfg (first :: more) st) in
  after = subscribers (serve_updates rt cfg [first] st)
  /\ after = JArr (if listed c subs then subs else subs ++ [c])
  /\ py_in c after = Ok true.
Proof.
  intros V Hall Hs Hw. cbv zeta.
  inversion Hall as [|? ? (t & R & T) Hmore]; subst.
  destruct first as [w data]. cbn [fst] in Hw. cbn [snd] in R.
  cbn [serve_updates].
  rewrite (telegram_webhook_reads _ _ _ _ _ _ _ R).
  destruct (handle_start_run rt cfg w c t st subs T Hs) as (st1 & -> & _ & F).
  cbn [snd].
  assert (S1 : subscribers st1
               = JArr (if listed c subs then subs else subs ++ [c])).
  { unfold subscribers at 1. rewrite F.
    destruct (listed c subs); [exact Hs|].
    destruct Hw as [Hw|Hw]; [discriminate Hw|]. now rewrite Hw. }
  assert (L : py_in c (subscribers st1) = Ok true).
  { rewrite S1. cbn [py_in]. f_equal.
    fold (listed c (if listed c subs then subs else subs ++ [c])).
    destruct (listed c subs) eqn:E; [exact E|].
    rewrite listed_app. cbn. rewrite (py_match_valid_refl _ V).
    now rewrite orb_true_r. }
  assert (Same : subscribers (serve_updates rt cfg more st1)
                 = subscribers st1).
  { unfold subscribers.
    now rewrite (starts_from_listed_chat rt cfg c more st1 Hmore L). }
  rewrite Same. repeat split; assumption.
Qed.

Lemma start_is_idempotent_witness :
  let hello := (Sample.always Unreachable, Sample.update (JStr "@ops") "/start") in
  let st := Sample.holding [JInt 3] in
  let after := subscribers (serve_updates Sample.rt Sample.cfg
                              [hello; hello; hello] st) in
  after = subscribers (serve_updates Sample.rt Sample.cfg [hello] st)
  /\ after = JArr [JInt 3; JStr "@ops"]
  /\ py_in (JStr "@ops") after = Ok true.
Proof.
  cbv zeta.
  apply (start_is_idempotent Sample.rt Sample.cfg (JStr "@ops")
           (Sample.always Unreachable, Sample.update (JStr "@ops") "/start")
           [(Sample.always Unreachable, Sample.update (JStr "@ops") "/start");
            (Sample.always Unreachable, Sample.update (JStr "@ops") "/start")]
           (Sample.holding [JInt 3]) [JInt 3]).
  - reflexivity.
  - repeat constructor; eexists; split; reflexivity.
  - reflexivity.
  - right; reflexivity.
Defined.

(** X11: on a stored list, [/stop] takes out one entry that matches the
    sender if there is one and none otherwise, and writes the list only
    in the first case: the write going through, the stored list has the
    count of such entries and its length down by one, or is what it was
    for a chat that is not listed; a chat that was listed once is not
    listed afterwards. *)
Theorem stop_takes_one_entry
  (rt : builtins) (cfg : config) (w : world)
  (c data : json) (st : state) (subs : list json) :
  command_from "/stop" c data ->
  subscribers st = JArr subs ->
  exists subs',
    let st' := snd (telegram_webhook rt cfg w (Some data) st) in
    subscr_file st'
    = (if listed c subs then written (disk w) (subscr_file st) (JArr subs')
       else subscr_file st)
    /\ (disk w = Written -> subscribers st' = JArr subs')
    /\ occurrences c subs' = Nat.pred (occurrences c subs)
    /\ List.length subs'
       = (List.length subs - (if listed c subs then 1 else 0))%nat
    /\ (occurrences c subs <= 1 -> py_in c (JArr subs') = Ok false)%nat.
Proof.
  intros (t & R & T) Hs.
  rewrite (telegram_webhook_reads _ _ _ _ _ _ _ R).
  destruct (handle_stop_run rt cfg w c t st subs T Hs) as (st' & -> & F & _).
  cbn [snd].
  assert (Last : forall l, (occurrences c l = 0)%nat ->
                           py_in c (JArr l) = Ok false).
  { intros l H. cbn [py_in]. f_equal. now apply no_occurrence_not_listed. }
  destruct (listed c subs) eqn:L.
  - destruct (remove_first_listed _ _ L) as [subs' Rm]. rewrite Rm in F.
    destruct (remove_first_split _ _ _ Rm) as (b & x & a & -> & Hb & Hx & ->).
    exists (b ++ a).
    assert (O : occurrences c (b ++ x :: a) = S (occurrences c (b ++ a))).
    { rewrite !occurrences_app, (not_listed_no_occurrence _ _ Hb).
      unfold occurrences at 1. cbn [filter]. rewrite Hx. reflexivity. }
    split; [exact F|].
    split; [intros D; unfold subscribers; now rewrite F, D|].
    split; [now rewrite O|].
    split; [rewrite !length_app; cbn [List.length]; lia|].
    intros H. apply Last. lia.
  - rewrite (remove_first_not_listed _ _ L) in F.
    exists subs.
    assert (O : occurrences c subs = 0%nat)
      by now apply not_listed_no_occurrence.
    split; [exact F|].
    split; [intros _; unfold subscribers at 1; rewrite F; exact Hs|].
    split; [now rewrite O|]. split; [lia|].
    intros _. now apply Last.
Qed.

Lemma stop_takes_one_entry_witness :
  exists subs',
    subscribers
      (snd (telegram_webhook Sample.rt Sample.cfg (Sample.always Unreachable)
              (Some (Sample.update (JInt 5) "/stop"))
              (Sample.holding [JInt 3; JInt 5; JInt 8]))) = JArr subs'
    /\ occurrences (JInt 5) subs'
       = Nat.pred (occurrences (JInt 5) [JInt 3; JInt 5; JInt 8])
    /\ List.length subs'
       = (List.length [JInt 3; JInt 5; JInt 8]
          - (if listed (JInt 5) [JInt 3; JInt 5; JInt 8] then 1 else 0))%nat
    /\ py_in (JInt 5) (JArr subs') = Ok false.
Proof.
  destruct (stop_takes_one_entry Sample.rt Sample.cfg
              (Sample.always Unreachable) (JInt 5)
              (Sample.update (JInt 5) "/stop")
              (Sample.holding [JInt 3; JInt 5; JInt 8])
              [JInt 3; JInt 5; JInt 8])
    as (subs' & _ & A & B & C & D).
  - eexists; split; reflexivity.
  - reflexivity.
  - exists subs'. split; [exact (A eq_refl)|]. split; [exact B|].
    split; [exact C|]. apply D. cbn. lia.
Defined.

(** ** The metrics client and the report, further *)

(** X12: from an answer without error status whose JSON says
    ["success"], [prom_query] reads the second element of the value of
    the first result and nothing else: later results and further elements
    are ignored, and the element may be a string or a number.  It returns
    [float()] of it, or [None] when [float()] refuses it. *)
Theorem prom_query_reads_first_sample
  (rt : builtins) (cfg : config) (w : world) (query : string) (st : state)
  (code : Z) (fields dfields first : list (string * json))
  (rest more : list json) (ts val : json) :
  net w (List.length (calls st)) (query_request rt cfg query)
  = Answered {| status_code := code; body_json := Some (JObj fields) |} ->
  is_error_status code = false ->
  dict_find "status" fields = Some (JStr "success") ->
  dict_find "data" fields = Some (JObj dfields) ->
  dict_find "result" dfields = Some (JArr (JObj first :: rest)) ->
  dict_find "value" first = Some (JArr (ts :: val :: more)) ->
  fst (prom_query rt cfg w query st)
  = match py_float rt val with
    | Ok x => Ok (Some x)
    | Raise _ => Ok None
    end.
Proof.
  intros E C Hs Hd Hr Hv. rewrite prom_query_run. cbv zeta.
  rewrite E. cbn [status_code body_json]. rewrite C.
  unfold read_sample. cbn [getitem_key rbind]. rewrite Hs.
  cbn [rbind py_eq]. rewrite String.eqb_refl. cbn [negb].
  rewrite Hd. cbn [rbind getitem_key]. rewrite Hr.
  cbn [rbind truthy negb getitem_idx nth_error getitem_key]. rewrite Hv.
  cbn [rbind getitem_idx nth_error].
  destruct (py_float rt val); reflexivity.
Qed.

Lemma prom_query_reads_first_sample_witness :
  let body value :=
    JObj [("status", JStr "success");
          ("data", JObj [("result",
                          JArr [JObj [("value", JArr [JInt 1704067200; value;
                                                      JStr "extra"])];
                                JObj [("value", JArr [JInt 1704067200;
                                                      JStr "7"])]])])] in
  let run value :=
    fst (prom_query Sample.rt Sample.cfg
           (Sample.always (Sample.answer 200 (Some (body value))))
           q_mem Sample.fresh) in
  run (JInt 3) = Ok (Some (S754_finite false 6755399441055744 (-51)))
  /\ run (JStr " +Inf ") = Ok (Some (S754_infinity false))
  /\ run (JStr "n/a") = Ok None
  /\ run JNull = Ok None.
Proof.
  cbv zeta.
  pose proof (fun value =>
    prom_query_reads_first_sample Sample.rt Sample.cfg
      (Sample.always (Sample.answer 200 (Some
         (JObj [("status", JStr "success");
                ("data", JObj [("result",
                   JArr [JObj [("value", JArr [JInt 1704067200; value;
                                               JStr "extra"])];
                         JObj [("value", JArr [JInt 1704067200;
                                               JStr "7"])]])])]))))
      q_mem Sample.fresh 200 _ _ _ _ _ _ value
      eq_refl eq_refl eq_refl eq_refl eq_refl eq_refl) as P.
  split; [exact (P (JInt 3))|].
  split; [exact (P (JStr " +Inf "))|].
  split; [exact (P (JStr "n/a"))|exact (P JNull)].
Defined.

(** X13: [prom_query] returns a number only if its call was answered
    without error status, with a JSON body whose [status] is ["success"]
    and whose [data.result] is not empty, the number being [float()] of
    [data.result[0].value[1]]; and then nothing is logged. *)
Theorem prom_query_value_comes_from_sample
  (rt : builtins) (cfg : config) (w : world) (query : string) (st : state)
  (x : spec_float) :
  fst (prom_query rt cfg w query st) = Ok (Some x) ->
  exists r data d results first pair val,
    net w (List.length (calls st)) (query_request rt cfg query) = Answered r
    /\ ~ (400 <= status_code r < 600)
    /\ body_json r = Some data
    /\ getitem_key data "status" = Ok (JStr "success")
    /\ getitem_key data "data" = Ok d
    /\ getitem_key d "result" = Ok results
    /\ truthy results = true
    /\ getitem_idx results 0 = Ok first
    /\ getitem_key first "value" = Ok pair
    /\ getitem_idx pair 1 = Ok val
    /\ py_float rt val = Ok x
    /\ logged (snd (prom_query rt cfg w query st)) = logged st.
Proof.
  rewrite prom_query_run. cbv zeta.
  destruct (net w _ _) as [|r]; [discriminate|].
  destruct (is_error_status (status_code r)) eqn:C; [discriminate|].
  destruct (body_json r) as [data|] eqn:B; [|discriminate].
  destruct (read_sample rt data) as [v|e] eqn:R; [|discriminate].
  cbn [fst snd]. intros [= ->].
  unfold read_sample in R.
  destruct (getitem_key data "status") as [status|] eqn:H1; [|discriminate R].
  cbn [rbind] in R.
  destruct (py_eq status (JStr "success")) eqn:Q; [|discriminate R].
  apply py_eq_str in Q. subst status. cbn [negb] in R.
  destruct (getitem_key data "data") as [d|] eqn:H2; [|discriminate R].
  cbn [rbind] in R.
  destruct (getitem_key d "result") as [results|] eqn:H3; [|discriminate R].
  cbn [rbind] in R.
  destruct (truthy results) eqn:H4; [|discriminate R]. cbn [negb] in R.
  destruct (getitem_idx results 0) as [first|] eqn:H5; [|discriminate R].
  cbn [rbind] in R.
  destruct (getitem_key first "value") as [pair|] eqn:H6; [|discriminate R].
  cbn [rbind] in R.
  destruct (getitem_idx pair 1) as [val|] eqn:H7; [|discriminate R].
  cbn [rbind] in R.
  destruct (py_float rt val) as [y|] eqn:H8; [|discriminate R].
  cbn [rbind] in R. injection R as ->.
  exists r, data, d, results, first, pair, val.
  split; [reflexivity|].
  split; [intros N; apply is_error_status_spec in N; congruence|].
  split; [exact B|].
  repeat (split; [assumption|]).
  reflexivity.
Qed.

Lemma prom_query_value_comes_from_sample_witness :
  exists r data d results first pair val,
    net (Sample.always (Sample.answer 200
           (Some (Sample.sample_body (JStr "42.5")))))
      0 (query_request Sample.rt Sample.cfg q_cpu) = Answered r
    /\ ~ (400 <= status_code r < 600)
    /\ body_json r = Some data
    /\ getitem_key data "status" = Ok (JStr "success")
    /\ getitem_key data "data" = Ok d
    /\ getitem_key d "result" = Ok results
    /\ truthy results = true
    /\ getitem_idx results 0 = Ok first
    /\ getitem_key first "value" = Ok pair
    /\ getitem_idx pair 1 = Ok val
    /\ py_float Sample.rt val = Ok Sample.f42_5
    /\ logged (snd (prom_query Sample.rt Sample.cfg
                      (Sample.always (Sample.answer 200
                         (Some (Sample.sample_body (JStr "42.5")))))
                      q_cpu Sample.fresh)) = [].
Proof.
  apply (prom_query_value_comes_from_sample Sample.rt Sample.cfg
           (Sample.always (Sample.answer 200
              (Some (Sample.sample_body (JStr "42.5")))))
           q_cpu Sample.fresh Sample.f42_5).
  vm_compute. reflexivity.
Defined.

Lemma prom_query_refused rt cfg w query st :
  accepted w (List.length (calls st)) (query_request rt cfg query) = false ->
  prom_query rt cfg w query st
  = (Ok None,
     with_log (with_call st (query_request rt cfg query))
       (QueryFailed RequestException)).
Proof.
  unfold accepted. intros A. rewrite prom_query_run. cbv zeta.
  destruct (net w _ _) as [|r]; [reflexivity|].
  apply negb_false_iff in A. now rewrite A.
Qed.

(** X14: when the metrics backend cannot be reached or answers every
    call with an error status, the report is still built: all five
    queries are tried, each failure is logged, and the text is the header
    followed by the four [N/A] lines. *)
Theorem report_without_backend
  (rt : builtins) (cfg : config) (w : world) (st : state) :
  (forall n query, accepted w n (query_request rt cfg query) = false) ->
  let run := build_status_text rt cfg w st in
  fst run = Ok (join newline [ header_line w;
                               "CPU: `N/A`"; "Memory: `N/A`";
                               "Disk: `N/A`"; "Network: `N/A`" ])%string
  /\ calls (snd run) = calls st ++ map (query_request rt cfg) status_queries
  /\ logged (snd run)
     = logged st ++ repeat (QueryFailed RequestException) 5.
Proof.
  intros Down. cbv zeta. unfold build_status_text.
  repeat (rewrite (bind_ok _ _ _ _ _ (prom_query_refused _ _ _ _ _ (Down _ _)))).
  unfold ret. cbn [fst snd with_log with_call calls logged].
  split; [reflexivity|]. unfold status_queries. cbn [map repeat].
  split; now rewrite <- !app_assoc.
Qed.

Lemma report_without_backend_witness :
  let run :=
    build_status_text Sample.rt Sample.cfg
      (Sample.always (Sample.answer 503 None)) Sample.fresh in
  fst run
  = Ok (join newline [ "*Status report — 2024-01-01T00:00:00 UTC*";
                       "CPU: `N/A`"; "Memory: `N/A`";
                       "Disk: `N/A`"; "Network: `N/A`" ])%string
  /\ calls (snd run) = map (query_request Sample.rt Sample.cfg) status_queries
  /\ logged (snd run) = repeat (QueryFailed RequestException) 5.
Proof.
  cbv zeta.
  apply (report_without_backend Sample.rt Sample.cfg
           (Sample.always (Sample.answer 503 None)) Sample.fresh).
  intros n query. reflexivity.
Defined.

(** ** The alert text *)

Lemma string_app_assoc (a b c : string) :
  ((a ++ b) ++ c = a ++ (b ++ c))%string.
Proof. induction a as [|x a IH]; cbn; [reflexivity|now rewrite IH]. Qed.

Lemma string_app_empty (a : string) : (a ++ EmptyString = a)%string.
Proof. induction a as [|x a IH]; cbn; [reflexivity|now rewrite IH]. Qed.

Lemma get_either_object fields k1 k2 default :
  get_either (JObj fields) k1 k2 default
  = Ok (py_or (field fields k1) (py_or (field fields k2) default)).
Proof.
  unfold get_either, field, py_or. cbn [py_get rbind].
  destruct (dict_find k1 fields) as [a|]; cbn [rbind].
  - destruct (truthy a); [reflexivity|].
    destruct (dict_find k2 fields); reflexivity.
  - cbn [truthy]. destruct (dict_find k2 fields); reflexivity.
Qed.

(** An entry shaped as the backend sends it always gives a block. *)
Lemma alert_block_of_entry rt a :
  alert_entry a = true -> exists block, alert_block rt a = Ok block.
Proof.
  destruct a as [ | | | | | | fields]; try discriminate.
  cbn [alert_entry]. rewrite andb_true_iff. intros [Hl Ha].
  unfold alert_block. cbn [py_get rbind].
  assert (L : exists lf, match dict_find "labels" fields with
                         | Some v => Ok v
                         | None => Ok (JObj [])
                         end = Ok (JObj lf)).
  { destruct (dict_find "labels" fields) as [[ | | | | | | lf]|];
      try discriminate Hl; eexists; reflexivity. }
  assert (A : exists af, match dict_find "annotations" fields with
                         | Some v => Ok v
                         | None => Ok (JObj [])
                         end = Ok (JObj af)).
  { destruct (dict_find "annotations" fields) as [[ | | | | | | af]|];
      try discriminate Ha; eexists; reflexivity. }
  destruct L as [lf ->]. destruct A as [af ->].
  destruct (dict_find "status" fields); cbn [rbind py_get];
    rewrite !get_either_object; cbn [rbind];
    destruct (dict_find "alertname" lf); cbn [rbind];
    eexists; reflexivity.
Qed.

(** Whatever goes wrong in a block is an [AttributeError]. *)
Lemma py_get_raises c k default e :
  py_get c k default = Raise e -> e = AttributeError.
Proof.
  destruct c; cbn; try (now intros [= <-]).
  destruct (dict_find k fields); discriminate.
Qed.

Lemma get_either_raises c k1 k2 default e :
  get_either c k1 k2 default = Raise e -> e = AttributeError.
Proof.
  unfold get_either.
  destruct (py_get c k1 JNull) as [a|e1] eqn:E1; cbn [rbind].
  - destruct (truthy a); [discriminate|].
    destruct (py_get c k2 JNull) as [b|e2] eqn:E2; cbn [rbind];
      [discriminate|].
    intros [= <-]. eapply py_get_raises; eassumption.
  - intros [= <-]. eapply py_get_raises; eassumption.
Qed.

Lemma alert_block_raises rt a e :
  alert_block rt a = Raise e -> e = AttributeError.
Proof.
  unfold alert_block.
  destruct (py_get a "status" _) as [status|e1] eqn:E1; cbn [rbind];
    [|intros [= <-]; eapply py_get_raises; eassumption].
  destruct (py_get a "labels" _) as [labels|e2] eqn:E2; cbn [rbind];
    [|intros [= <-]; eapply py_get_raises; eassumption].
  destruct (py_get a "annotations" _) as [ann|e3] eqn:E3; cbn [rbind];
    [|intros [= <-]; eapply py_get_raises; eassumption].
  destruct (py_get labels "alertname" _) as [name|e4] eqn:E4; cbn [rbind];
    [|intros [= <-]; eapply py_get_raises; eassumption].
  destruct (get_either ann _ _ _) as [desc|e5] eqn:E5; cbn [rbind];
    [|intros [= <-]; eapply get_either_raises; eassumption].
  destruct (get_either labels _ _ _) as [inst|e6] eqn:E6; cbn [rbind];
    [discriminate|intros [= <-]; eapply get_either_raises; eassumption].
Qed.

Lemma alert_block_needs_object rt a :
  is_object a = false -> alert_block rt a = Raise AttributeError.
Proof. destruct a; try discriminate; reflexivity. Qed.

Lemma alert_blocks_in_order rt items : forall text,
  forallb alert_entry items = true ->
  exists blocks,
    Forall2 (fun a block => alert_block rt a = Ok block) items blocks
    /\ alert_blocks rt text items
       = Ok (text ++ String.concat EmptyString blocks)%string.
Proof.
  induction items as [|a rest IH]; intros text H.
  - exists []. split; [constructor|]. cbn. now rewrite string_app_empty.
  - cbn [forallb] in H. apply andb_true_iff in H. destruct H as [Ha Hrest].
    destruct (alert_block_of_entry rt a Ha) as [block Eb].
    destruct (IH (text ++ block)%string Hrest) as (blocks & F & E).
    exists (block :: blocks). split; [now constructor|].
    cbn [alert_blocks]. rewrite Eb. cbn [rbind]. rewrite E.
    f_equal. rewrite string_app_assoc. f_equal.
    destruct blocks as [|b bs]; cbn [String.concat];
      [now rewrite string_app_empty|reflexivity].
Qed.

Lemma alert_blocks_bad_entry rt items : forall text a,
  In a items -> is_object a = false ->
  alert_blocks rt text items = Raise AttributeError.
Proof.
  induction items as [|b rest IH]; intros text a Hin Hbad; [contradiction|].
  cbn [alert_blocks].
  destruct (alert_block rt b) as [block|e] eqn:E; cbn [rbind].
  - destruct Hin as [->|Hin].
    + rewrite (alert_block_needs_object rt a Hbad) in E. discriminate.
    + now apply (IH _ a).
  - now rewrite (alert_block_raises _ _ _ E).
Qed.

(** X15: a payload whose [alerts] is a non-empty list of entries shaped
    as the alerting backend sends them (objects whose [labels] and
    [annotations], when present, are objects) always renders, and the
    text is the heading followed by one block per entry, in the order of
    the list. *)
Theorem alerts_render_one_block_each
  (rt : builtins) (fields : list (string * json)) (items : list json) :
  dict_find "alerts" fields = Some (JArr items) ->
  items <> [] ->
  forallb alert_entry items = true ->
  exists blocks,
    Forall2 (fun a block => alert_block rt a = Ok block) items blocks
    /\ render_alert rt (JObj fields)
       = Ok (alert_heading ++ String.concat EmptyString blocks)%string.
Proof.
  intros Ha Hne Hwf.
  destruct (alert_blocks_in_order rt items alert_heading Hwf)
    as (blocks & F & E).
  exists blocks. split; [exact F|].
  unfold render_alert. cbn [py_get getitem_key rbind]. rewrite Ha.
  cbn [rbind truthy].
  destruct items as [|a rest]; [contradiction|].
  cbn [py_iter rbind]. exact E.
Qed.

Lemma alerts_render_one_block_each_witness :
  exists blocks,
    Forall2 (fun a block => alert_block Sample.rt a = Ok block)
      [JObj [("status", JStr "firing"); ("labels", JObj [("host", JStr "db1")])];
       JObj [("annotations", JObj [("summary", JStr "disk full")])]]
      blocks
    /\ render_alert Sample.rt
         (JObj [("receiver", JStr "bot");
                ("alerts",
                 JArr [JObj [("status", JStr "firing");
                             ("labels", JObj [("host", JStr "db1")])];
                       JObj [("annotations",
                              JObj [("summary", JStr "disk full")])]])])
       = Ok (alert_heading ++ String.concat EmptyString blocks)%string.
Proof.
  apply alerts_render_one_block_each; [reflexivity|discriminate|reflexivity].
Defined.

(** X16: a payload without [alerts] (or with an empty or [null] one) is
    rendered as one alert and never fails: the title is [title], else
    [ruleName], else ["Grafana alert"]; the state is [state], else
    [status], else empty; the message is [message] or empty -- each
    taken only when it is not false. *)
Theorem flat_payload_rendering
  (rt : builtins) (fields : list (string * json)) :
  truthy (field fields "alerts") = false ->
  let title := py_or (field fields "title")
                 (py_or (field fields "ruleName") (JStr "Grafana alert")) in
  let state := py_or (field fields "state")
                 (py_or (field fields "status") (JStr EmptyString)) in
  let message := py_or (field fields "message") (JStr EmptyString) in
  render_alert rt (JObj fields)
  = Ok (alert_heading ++ newline ++ "*" ++ py_str rt title ++ "* — `"
        ++ py_str rt state ++ "`" ++ newline ++ py_str rt message
        ++ newline)%string.
Proof.
  intros Ha. cbv zeta. unfold render_alert.
  assert (G : py_get (JObj fields) "alerts" JNull = Ok (field fields "alerts"))
    by (unfold field; cbn; destruct (dict_find "alerts" fields); reflexivity).
  rewrite G. cbn [rbind]. rewrite Ha.
  unfold flat_block. rewrite !get_either_object. cbn [rbind].
  assert (M : py_get (JObj fields) "message" JNull
              = Ok (field fields "message"))
    by (unfold field; cbn; destruct (dict_find "message" fields); reflexivity).
  rewrite M. reflexivity.
Qed.

Lemma flat_payload_rendering_witness :
  render_alert Sample.rt
    (JObj [("ruleName", JStr "Latency"); ("title", JStr EmptyString);
           ("status", JStr "alerting"); ("alerts", JArr [])])
  = Ok (alert_heading ++ newline ++ "*Latency* — `alerting`" ++ newline
        ++ newline)%string.
Proof.
  apply (flat_payload_rendering Sample.rt
           [("ruleName", JStr "Latency"); ("title", JStr EmptyString);
            ("status", JStr "alerting"); ("alerts", JArr [])]).
  reflexivity.
Defined.

(** X17: the block of one alert entry.  The name is [labels.alertname],
    ["alert"] only when that key is missing; the instance is
    [labels.instance], else [labels.host], else empty; the description is
    [annotations.description], else [annotations.summary], else empty;
    the status is [status] or empty when missing.  Missing [labels] or
    [annotations] count as empty objects. *)
Theorem alert_block_fallbacks
  (rt : builtins) (fields labels annotations : list (string * json)) :
  py_get (JObj fields) "labels" (JObj []) = Ok (JObj labels) ->
  py_get (JObj fields) "annotations" (JObj []) = Ok (JObj annotations) ->
  let name := match dict_find "alertname" labels with
              | Some v => v
              | None => JStr "alert"
              end in
  let status := match dict_find "status" fields with
                | Some v => v
                | None => JStr EmptyString
                end in
  let inst := py_or (field labels "instance")
                (py_or (field labels "host") (JStr EmptyString)) in
  let desc := py_or (field annotations "description")
                (py_or (field annotations "summary") (JStr EmptyString)) in
  alert_block rt (JObj fields)
  = Ok (newline ++ "*" ++ py_str rt name ++ "* — " ++ py_str rt status
        ++ newline ++ "Instance: `" ++ py_str rt inst ++ "`" ++ newline
        ++ py_str rt desc ++ newline)%string.
Proof.
  intros Hl Ha. cbv zeta. unfold alert_block.
  rewrite Hl, Ha. cbn [py_get rbind].
  rewrite !get_either_object. cbn [rbind].
  destruct (dict_find "status" fields); cbn [rbind];
    destruct (dict_find "alertname" labels); reflexivity.
Qed.

Lemma alert_block_fallbacks_witness :
  alert_block Sample.rt
    (JObj [("labels", JObj [("alertname", JNull); ("host", JStr "db1");
                            ("instance", JStr EmptyString)]);
           ("annotations", JObj [("summary", JStr "disk full")])])
  = Ok (newline ++ "*None* — " ++ newline ++ "Instance: `db1`" ++ newline
        ++ "disk full" ++ newline)%string.
Proof.
  apply (alert_block_fallbacks Sample.rt
           [("labels", JObj [("alertname", JNull); ("host", JStr "db1");
                             ("instance", JStr EmptyString)]);
            ("annotations", JObj [("summary", JStr "disk full")])]
           [("alertname", JNull); ("host", JStr "db1");
            ("instance", JStr EmptyString)]
           [("summary", JStr "disk full")]); reflexivity.
Defined.

(** X18: delivery is all or nothing with respect to rendering.  When
    one entry of [alerts] is not an object, the handler raises
    [AttributeError] before it reads the subscribers: no message is sent
    to anybody, also not for the entries that came before the bad one,
    and nothing is written or logged. *)
Theorem bad_alert_entry_stops_delivery
  (rt : builtins) (cfg : config) (w : world)
  (fields : list (string * json)) (items : list json) (a : json)
  (st : state) :
  dict_find "alerts" fields = Some (JArr items) ->
  In a items ->
  is_object a = false ->
  grafana_webhook rt cfg w (Some (JObj fields)) st
  = (Raise AttributeError, st).
Proof.
  intros Ha Hin Hbad. rewrite grafana_webhook_run.
  assert (R : render_alert rt (JObj fields) = Raise AttributeError).
  { unfold render_alert. cbn [py_get getitem_key rbind]. rewrite Ha.
    cbn [rbind truthy].
    destruct items as [|b rest]; [contradiction|].
    cbn [py_iter rbind].
    now apply (alert_blocks_bad_entry rt (b :: rest) alert_heading a). }
  now rewrite R.
Qed.

Lemma bad_alert_entry_stops_delivery_witness :
  grafana_webhook Sample.rt Sample.cfg
    (Sample.always (Sample.answer 200 None))
    (Some (JObj [("alerts",
                  JArr [JObj [("status", JStr "firing")];
                        JStr "resolved"])]))
    (Sample.holding [JInt 3; JInt 5])
  = (Raise AttributeError, Sample.holding [JInt 3; JInt 5]).
Proof.
  apply (bad_alert_entry_stops_delivery Sample.rt Sample.cfg
           (Sample.always (Sample.answer 200 None))
           [("alerts", JArr [JObj [("status", JStr "firing")];
                             JStr "resolved"])]
           [JObj [("status", JStr "firing")]; JStr "resolved"]
           (JStr "resolved")).
  - reflexivity.
  - right; left; reflexivity.
  - reflexivity.
Defined.

(** ** Configuration and the fallback recipient *)

Lemma configure_object defaults fields :
  configure defaults (Parsed (JObj fields))
  = Ok {| BOT_TOKEN := match dict_find "BOT_TOKEN" fields with
                       | Some v => v
                       | None => BOT_TOKEN defaults
                       end;
          PROMETHEUS_URL := match dict_find "PROMETHEUS_URL" fields with
                            | Some v => v
                            | None => PROMETHEUS_URL defaults
                            end;
          ADMIN_CHAT_ID := match dict_find "ADMIN_CHAT_ID" fields with
                           | Some v => v
                           | None => ADMIN_CHAT_ID defaults
                           end |}.
Proof.
  unfold configure. cbn [rbind py_get].
  destruct (dict_find "BOT_TOKEN" fields); cbn [rbind];
    destruct (dict_find "PROMETHEUS_URL" fields); cbn [rbind];
    destruct (dict_find "ADMIN_CHAT_ID" fields); reflexivity.
Qed.

(** X19: a [config.json] that gives [ADMIN_CHAT_ID] a false value
    ([null], an empty string, zero) switches the fallback off, whatever
    the built-in default: with no subscriber stored, an alert that
    renders is acknowledged and sent to nobody. *)
Theorem fallback_switched_off_by_config
  (rt : builtins) (defaults cfg : config) (w : world)
  (cfields : list (string * json)) (admin payload : json) (text : string)
  (st : state) :
  configure defaults (Parsed (JObj cfields)) = Ok cfg ->
  dict_find "ADMIN_CHAT_ID" cfields = Some admin ->
  truthy admin = false ->
  render_alert rt payload = Ok text ->
  subscribers st = JArr [] ->
  grafana_webhook rt cfg w (Some payload) st = (Ok ack, st).
Proof.
  intros Hc Ha Hf R Hs. rewrite configure_object in Hc. rewrite Ha in Hc.
  injection Hc as <-.
  rewrite (grafana_webhook_rendered _ _ _ _ _ _ R), Hs.
  unfold recipients. cbn [ADMIN_CHAT_ID truthy negb andb]. rewrite Hf.
  reflexivity.
Qed.

Lemma fallback_switched_off_by_config_witness :
  grafana_webhook Sample.rt
    {| BOT_TOKEN := JStr "TOKEN";
       PROMETHEUS_URL := JStr "http://prom:9090";
       ADMIN_CHAT_ID := JNull |}
    (Sample.always (Sample.answer 200 None))
    (Some Sample.high_cpu) Sample.fresh
  = (Ok ack, Sample.fresh).
Proof.
  apply (fallback_switched_off_by_config Sample.rt Sample.cfg _
           (Sample.always (Sample.answer 200 None))
           [("PROMETHEUS_URL", JStr "http://prom:9090");
            ("ADMIN_CHAT_ID", JNull)]
           JNull Sample.high_cpu Sample.high_cpu_text Sample.fresh);
    reflexivity.
Defined.

(** ** Registering the webhook, further *)

(** X20: the registration handler never reads or writes the subscriber
    file and never logs; it makes no call at all, or a single one to the
    platform's registration endpoint with a [url] that is not false. *)
Theorem set_webhook_effects
  (rt : builtins) (cfg : config) (w : world)
  (body : option json) (st : state) :
  let st' := snd (set_webhook rt cfg w body st) in
  subscr_file st' = subscr_file st
  /\ logged st' = logged st
  /\ (calls st' = calls st
      \/ exists url, truthy url = true
                     /\ calls st' = calls st ++ [set_webhook_request rt cfg url]).
Proof.
  cbv zeta.
  assert (Run : exists r st',
    set_webhook rt cfg w body st = (r, st')
    /\ subscr_file st' = subscr_file st
    /\ logged st' = logged st
    /\ (calls st' = calls st
        \/ exists url, truthy url = true
             /\ calls st' = calls st ++ [set_webhook_request rt cfg url])).
  { destruct body as [data|];
      [|eexists; eexists; split; [reflexivity|];
        split; [reflexivity|]; split; [reflexivity|left; reflexivity]].
    unfold set_webhook. unfold bind at 1. cbn [get_json ret].
    unfold bind at 1. unfold lift at 1.
    destruct (py_get data "url" JNull) as [url|e];
      [|eexists; eexists; split; [reflexivity|];
        split; [reflexivity|]; split; [reflexivity|left; reflexivity]].
    destruct (truthy url) eqn:T; cbn [negb];
      [|eexists; eexists; split; [reflexivity|];
        split; [reflexivity|]; split; [reflexivity|left; reflexivity]].
    unfold bind, http, response_json.
    destruct (net w _ _) as [|r].
    - eexists; eexists; split; [reflexivity|].
      split; [reflexivity|]. split; [reflexivity|].
      right. exists url. split; [exact T|reflexivity].
    - destruct (body_json r);
        (eexists; eexists; split; [reflexivity|];
         split; [reflexivity|]; split; [reflexivity|];
         right; exists url; split; [exact T|reflexivity]). }
  destruct Run as (r & st' & -> & F & L & C). cbn [snd].
  split; [exact F|]. split; [exact L|exact C].
Qed.

(** ** Delivery that fails *)

Lemma send_telegram_refused rt cfg w c text st :
  accepted w (List.length (calls st)) (send_message_request rt cfg c text)
  = false ->
  send_telegram rt cfg w c text st
  = (Ok false,
     with_log (with_call st (send_message_request rt cfg c text))
       (SendFailed RequestException)).
Proof. intros A. rewrite send_telegram_run. cbv zeta. now rewrite A. Qed.

Lemma deliver_all_refused rt cfg w text items : forall st,
  (forall n req, accepted w n req = false) ->
  for_each items (fun c => send_telegram rt cfg w c text) st
  = (Ok tt,
     {| subscr_file := subscr_file st;
        calls := calls st
                 ++ map (fun c => send_message_request rt cfg c text) items;
        logged := logged st
                  ++ repeat (SendFailed RequestException)
                       (List.length items) |}).
Proof.
  induction items as [|c rest IH]; intros st Down.
  - cbn. rewrite !app_nil_r. now destruct st.
  - cbn [for_each].
    rewrite (bind_ok _ _ _ _ _ (send_telegram_refused _ _ _ _ _ _ (Down _ _))).
    rewrite (IH _ Down). cbn [subscr_file calls logged with_log with_call].
    cbn [map List.length repeat]. now rewrite <- !app_assoc.
Qed.

(** X21: failed deliveries change neither the course nor the answer of
    the alert hook.  When the platform refuses or misses every call, each
    stored subscriber is still tried once, in order, each failure is
    logged, and the request is acknowledged as if all had gone well. *)
Theorem alert_acknowledged_when_delivery_fails
  (rt : builtins) (cfg : config) (w : world)
  (payload : json) (text : string) (subs : list json) (st : state) :
  (forall n req, accepted w n req = false) ->
  render_alert rt payload = Ok text ->
  subscribers st = JArr subs ->
  subs <> [] ->
  let run := grafana_webhook rt cfg w (Some payload) st in
  fst run = Ok ack
  /\ calls (snd run)
     = calls st ++ map (fun c => send_message_request rt cfg c text) subs
  /\ logged (snd run)
     = logged st ++ repeat (SendFailed RequestException) (List.length subs).
Proof.
  intros Down R Hs Hne. cbv zeta.
  rewrite (grafana_webhook_rendered _ _ _ _ _ _ R), Hs.
  assert (T : recipients cfg (JArr subs) = JArr subs).
  { unfold recipients. destruct subs; [contradiction|reflexivity]. }
  rewrite T. cbn [py_iter]. rewrite (deliver_all_refused _ _ _ _ _ _ Down).
  cbn [fst snd calls logged]. repeat split.
Qed.

Lemma alert_acknowledged_when_delivery_fails_witness :
  let run :=
    grafana_webhook Sample.rt Sample.cfg (Sample.always (Sample.answer 429 None))
      (Some Sample.high_cpu) (Sample.holding [JInt 3; JInt 5]) in
  fst run = Ok ack
  /\ calls (snd run)
     = map (fun c => send_message_request Sample.rt Sample.cfg c
                       Sample.high_cpu_text) [JInt 3; JInt 5]
  /\ logged (snd run) = repeat (SendFailed RequestException) 2.
Proof.
  cbv zeta.
  apply (alert_acknowledged_when_delivery_fails Sample.rt Sample.cfg
           (Sample.always (Sample.answer 429 None))
           Sample.high_cpu Sample.high_cpu_text [JInt 3; JInt 5]
           (Sample.holding [JInt 3; JInt 5])).
  - intros n req. reflexivity.
  - reflexivity.
  - reflexivity.
  - discriminate.
Defined.

(** ** Further edges *)

(** X22: on [/start] the greeting is sent first and is the only call
    made, whether or not the chat is already listed and whatever the
    subscriber file holds -- also when the file holds something that is
    not a list or cannot be written, so that subscribing then fails. *)
Theorem start_always_greets
  (rt : builtins) (cfg : config) (w : world)
  (data c : json) (t : string) (st : state) :
  read_update data = Ok (Some (c, JStr t)) ->
  startswith t "/start" = true ->
  calls (snd (telegram_webhook rt cfg w (Some data) st))
  = calls st ++ [send_message_request rt cfg c greeting]
  /\ carries (send_message_request rt cfg c greeting) c greeting.
Proof.
  intros R T. rewrite (telegram_webhook_reads _ _ _ _ _ _ _ R).
  split; [now apply handle_start_calls|split; reflexivity].
Qed.

Lemma start_always_greets_witness :
  let st := {| subscr_file := Some (JObj [("5", JBool true)]);
               calls := []; logged := [] |} in
  calls (snd (telegram_webhook Sample.rt Sample.cfg (Sample.always Unreachable)
                (Some (Sample.update (JInt 5) "/start")) st))
  = calls st ++ [send_message_request Sample.rt Sample.cfg (JInt 5) greeting]
  /\ carries (send_message_request Sample.rt Sample.cfg (JInt 5) greeting)
       (JInt 5) greeting.
Proof.
  cbv zeta.
  apply (start_always_greets Sample.rt Sample.cfg (Sample.always Unreachable)
           (Sample.update (JInt 5) "/start") (JInt 5) "/start");
    reflexivity.
Defined.

(** X23: start-up reads its settings only from a missing [config.json]
    (all defaults) or from one that holds a JSON object (each key of the
    file wins over its default, also with a [null] value); a file that is
    not JSON, or holds anything but an object, makes start-up raise. *)
Theorem configure_succeeds_on_objects_only
  (defaults : config) (file : config_file) :
  ((exists cfg, configure defaults file = Ok cfg) <->
   file = NoFile \/ exists fields, file = Parsed (JObj fields))
  /\ configure defaults NoFile = Ok defaults
  /\ (forall fields cfg,
      configure defaults (Parsed (JObj fields)) = Ok cfg ->
      forall v,
        (dict_find "BOT_TOKEN" fields = Some v -> BOT_TOKEN cfg = v)
        /\ (dict_find "PROMETHEUS_URL" fields = Some v ->
            PROMETHEUS_URL cfg = v)
        /\ (dict_find "ADMIN_CHAT_ID" fields = Some v ->
            ADMIN_CHAT_ID cfg = v)).
Proof.
  split; [|split].
  - split.
    + intros [cfg H]. destruct file as [ | |j]; [now left|discriminate H|].
      destruct j; try discriminate H. right. eexists; reflexivity.
    + intros [->|[fields ->]].
      * exists defaults. now destruct defaults.
      * rewrite configure_object. eexists; reflexivity.
  - now destruct defaults.
  - intros fields cfg H v. rewrite configure_object in H. injection H as <-.
    cbn [BOT_TOKEN PROMETHEUS_URL ADMIN_CHAT_ID].
    repeat split; intros ->; reflexivity.
Qed.

(** X24: [prom_query] never raises and never retries: whatever the
    backend does, it makes exactly one call, leaves the subscriber file
    alone and logs at most one failure. *)
Theorem prom_query_single_attempt
  (rt : builtins) (cfg : config) (w : world) (query : string) (st : state) :
  let run := prom_query rt cfg w query st in
  (exists v, fst run = Ok v)
  /\ calls (snd run) = calls st ++ [query_request rt cfg query]
  /\ subscr_file (snd run) = subscr_file st
  /\ (logged (snd run) = logged st
      \/ exists e, logged (snd run) = logged st ++ [QueryFailed e]).
Proof.
  cbv zeta. rewrite prom_query_run. cbv zeta.
  destruct (net w _ _) as [|r].
  - split; [eexists; reflexivity|]. split; [reflexivity|].
    split; [reflexivity|]. right. eexists; reflexivity.
  - destruct (is_error_status (status_code r)).
    + split; [eexists; reflexivity|]. split; [reflexivity|].
      split; [reflexivity|]. right. eexists; reflexivity.
    + destruct (body_json r) as [data|].
      * destruct (read_sample rt data).
        -- split; [eexists; reflexivity|]. split; [reflexivity|].
           split; [reflexivity|]. left. reflexivity.
        -- split; [eexists; reflexivity|]. split; [reflexivity|].
           split; [reflexivity|]. right. eexists; reflexivity.
      * split; [eexists; reflexivity|]. split; [reflexivity|].
        split; [reflexivity|]. right. eexists; reflexivity.
Qed.

Lemma configure_succeeds_on_objects_only_witness :
  configure Sample.cfg NoFile = Ok Sample.cfg
  /\ ADMIN_CHAT_ID {| BOT_TOKEN := JStr "TOKEN";
                      PROMETHEUS_URL := JStr "http://localhost:9090";
                      ADMIN_CHAT_ID := JNull |} = JNull.
Proof.
  destruct (configure_succeeds_on_objects_only Sample.cfg
              (Parsed (JObj [("ADMIN_CHAT_ID", JNull)]))) as (_ & D & K).
  split; [exact D|].
  apply (K [("ADMIN_CHAT_ID", JNull)] _ eq_refl JNull). reflexivity.
Defined.
